(** * attrs: converters, filters, comparators, setters, asdict/astuple, evolve

    A shallow embedding of the Python modules [attr/converters.py],
    [attr/filters.py], [attr/_cmp.py], [attr/setters.py] and
    [attr/_funcs.py], and the properties of them that the specification
    states. *)

From Stdlib Require Import List String Ascii ZArith Bool Lia.
From Stdlib Require Import DecimalString DecimalZ DecimalPos.
Import ListNotations.
Local Open Scope string_scope.
Local Open Scope Z_scope.

Set Warnings "-register-all".

(** ** Python objects *)

(** Identity of a class object.  The builtin classes the sources test for
    with [isinstance] each have a constructor; the class [attr.Attribute]
    has one since [filters.py] reads [attribute.__class__]; any other class
    object is known by the serial number it got when it was created (two
    classes may well share a name). *)
Inductive pytype :=
| T_NoneType | T_bool | T_int | T_str
| T_tuple | T_list | T_set | T_frozenset | T_dict
| T_Attribute
| T_class (serial : nat).

Definition pytype_eq_dec (a b : pytype) : {a = b} + {a <> b}.
Proof. decide equality; apply Nat.eq_dec. Defined.

Definition pytype_eqb (a b : pytype) : bool :=
  if pytype_eq_dec a b then true else false.

Lemma pytype_eqb_eq a b : pytype_eqb a b = true <-> a = b.
Proof.
  unfold pytype_eqb. destruct (pytype_eq_dec a b); split; congruence.
Qed.

(** Python values.  A [set] or [frozenset] is the list of its elements in
    iteration order, a [dict] the list of its items in insertion order, any
    other object its class and its instance dictionary.  Only the exact
    builtin classes are modelled, not their subclasses, and no [float]. *)
Inductive pyvalue :=
| VNone
| VBool (b : bool)
| VInt (z : Z)
| VStr (s : string)
| VTuple (xs : list pyvalue)
| VList (xs : list pyvalue)
| VSet (xs : list pyvalue)
| VFrozenset (xs : list pyvalue)
| VDict (items : list (pyvalue * pyvalue))
| VObj (cls : pytype) (dict : list (string * pyvalue)).

(** [type(v)], which is also [v.__class__]. *)
Definition type_of (v : pyvalue) : pytype :=
  match v with
  | VNone => T_NoneType
  | VBool _ => T_bool
  | VInt _ => T_int
  | VStr _ => T_str
  | VTuple _ => T_tuple
  | VList _ => T_list
  | VSet _ => T_set
  | VFrozenset _ => T_frozenset
  | VDict _ => T_dict
  | VObj c _ => c
  end.

(** ** Exceptions *)

(** An f-string is kept as its fragments: literal text, [{v!r}] and [{v}]. *)
Inductive fragment :=
| Lit (s : string)
| Repr (v : pyvalue)
| Str (s : string).

Definition message := list fragment.

(** The exception classes the sources raise, each with its argument.
    [NameError] is what Python raises when a global name is read that the
    module never bound; [RecursionError] when the call stack is exhausted;
    [UserError] stands for whatever a caller-supplied function raises. *)
Inductive exn :=
| TypeError (msg : message)
| ValueError (msg : message)
| NameError (name : string)
| AttributeError (attr : string)
| NotAnAttrsClassError (cls : pytype)
| FrozenAttributeError (msg : message)
| RecursionError
| UserError (tag : string) (payload : pyvalue).

Inductive result (A : Type) :=
| Ok (a : A)
| Raise (e : exn).
Arguments Ok {A} a.
Arguments Raise {A} e.

Definition bind {A B} (m : result A) (k : A -> result B) : result B :=
  match m with
  | Ok a => k a
  | Raise e => Raise e
  end.

Notation "x <- m ;; k" := (bind m (fun x => k))
  (at level 61, m at next level, right associativity).

Lemma bind_Ok {A B} (a : A) (k : A -> result B) : bind (Ok a) k = k a.
Proof. reflexivity. Qed.

Lemma bind_ret {A} (m : result A) : bind m Ok = m.
Proof. destruct m; reflexivity. Qed.

Lemma bind_assoc {A B C} (m : result A) (f : A -> result B) (g : B -> result C) :
  bind (bind m f) g = bind m (fun a => bind (f a) g).
Proof. destruct m; reflexivity. Qed.

(** ** Attribute access *)

Fixpoint lookup {A} (k : string) (d : list (string * A)) : option A :=
  match d with
  | [] => None
  | (k', a) :: d' => if String.eqb k k' then Some a else lookup k d'
  end.

(** [d[k] = a] on a dictionary with [str] keys: the value of an existing
    key is replaced where it stands, a new key goes last. *)
Fixpoint update {A} (k : string) (a : A) (d : list (string * A)) : list (string * A) :=
  match d with
  | [] => [(k, a)]
  | (k', a') :: d' =>
      if String.eqb k k' then (k, a) :: d' else (k', a') :: update k a d'
  end.

(** [getattr(o, n)] on the instance dictionary; the builtin values carry
    none of the attributes the sources read. *)
Definition getattr (o : pyvalue) (n : string) : result pyvalue :=
  match o with
  | VObj _ d =>
      match lookup n d with
      | Some v => Ok v
      | None => Raise (AttributeError n)
      end
  | _ => Raise (AttributeError n)
  end.

Lemma lookup_update_eq {A} k (a : A) d : lookup k (update k a d) = Some a.
Proof.
  induction d as [|[k' a'] d IH]; simpl.
  - now rewrite String.eqb_refl.
  - destruct (String.eqb k k') eqn:E; simpl.
    + now rewrite String.eqb_refl.
    + now rewrite E.
Qed.

Lemma lookup_update_neq {A} k k' (a : A) d :
  k <> k' -> lookup k (update k' a d) = lookup k d.
Proof.
  intros Hne. apply String.eqb_neq in Hne.
  induction d as [|[k'' a''] d IH]; simpl.
  - now rewrite Hne.
  - destruct (String.eqb k' k'') eqn:E; simpl.
    + apply String.eqb_eq in E. subst k''. now rewrite Hne.
    + now rewrite IH.
Qed.

Lemma keys_update {A} k (a : A) d n :
  In n (map fst (update k a d)) <-> n = k \/ In n (map fst d).
Proof.
  induction d as [|[k' a'] d IH]; simpl.
  - intuition.
  - destruct (String.eqb k k') eqn:E; simpl.
    + apply String.eqb_eq in E. subst. intuition.
    + rewrite IH. intuition.
Qed.

Lemma lookup_None {A} k (d : list (string * A)) :
  lookup k d = None <-> ~ In k (map fst d).
Proof.
  induction d as [|[k' a'] d IH]; simpl.
  - intuition.
  - destruct (String.eqb k k') eqn:E.
    + apply String.eqb_eq in E. subst. split; [discriminate | intuition].
    + apply String.eqb_neq in E. rewrite IH. intuition.
Qed.

Lemma lookup_filter_neq {A} k k' (d : list (string * A)) :
  k <> k' ->
  lookup k (List.filter (fun kv => negb (String.eqb k' (fst kv))) d) = lookup k d.
Proof.
  intros Hne. induction d as [|[k'' a''] d IH]; simpl; [reflexivity|].
  destruct (String.eqb k' k'') eqn:E; simpl.
  + apply String.eqb_eq in E. subst k''.
    apply String.eqb_neq in Hne. now rewrite Hne.
  + now rewrite IH.
Qed.

Lemma filter_absent {A} k (d : list (string * A)) :
  lookup k d = None ->
  List.filter (fun kv => negb (String.eqb k (fst kv))) d = d.
Proof.
  induction d as [|[k' a'] d IH]; simpl; [reflexivity|].
  destruct (String.eqb k k') eqn:E; [discriminate|].
  intros H. simpl. now rewrite IH.
Qed.

(** ** Strings *)

(** Python strings are modelled by strings of ASCII characters;
    [str.lower] maps [A-Z] to [a-z] and leaves every other character. *)
Definition is_upper (c : ascii) : bool :=
  ((65 <=? nat_of_ascii c) && (nat_of_ascii c <=? 90))%nat.

Definition ascii_lower (c : ascii) : ascii :=
  if is_upper c then ascii_of_nat (nat_of_ascii c + 32) else c.

Fixpoint lower (s : string) : string :=
  match s with
  | EmptyString => EmptyString
  | String c s' => String (ascii_lower c) (lower s')
  end.

(** [str(z)] for an [int]: its decimal numeral. *)
Definition str_of_int (z : Z) : string :=
  NilZero.string_of_int (Z.to_int z).

(** [x in (t1, ..., tn)] for strings. *)
Definition str_in (x : string) (ts : list string) : bool :=
  existsb (String.eqb x) ts.

Lemma str_in_In x ts : str_in x ts = true <-> In x ts.
Proof.
  unfold str_in. rewrite existsb_exists. split.
  - intros [t [Hin Heq]]. apply String.eqb_eq in Heq. now subst.
  - intros Hin. exists x. split; [assumption | apply String.eqb_refl].
Qed.

(** Comparison of two strings that ignores the case of [A-Z]/[a-z]. *)
Fixpoint eq_nocase (s t : string) : bool :=
  match s, t with
  | EmptyString, EmptyString => true
  | String c s', String d t' =>
      Ascii.eqb (ascii_lower c) (ascii_lower d) && eq_nocase s' t'
  | _, _ => false
  end.

Lemma eq_nocase_lower s : forall t, eq_nocase s t = true <-> lower s = lower t.
Proof.
  induction s as [|c s IH]; intros [|d t]; simpl; try (split; congruence).
  rewrite andb_true_iff, Ascii.eqb_eq, IH. split.
  - intros [-> ->]. reflexivity.
  - intros H. injection H as H1 H2. now split.
Qed.

Lemma str_of_int_inj z z' : str_of_int z = str_of_int z' -> z = z'.
Proof.
  unfold str_of_int. intros H.
  apply (f_equal NilZero.int_of_string) in H.
  assert (Hnn : forall n, Z.to_int n <> Decimal.Pos Decimal.Nil /\
                          Z.to_int n <> Decimal.Neg Decimal.Nil).
  { intros [|p|p]; simpl; split; try discriminate;
      intros E; injection E as E; now apply Unsigned.to_uint_nonnil in E. }
  rewrite !NilZero.isi in H by apply Hnn.
  injection H as H. now apply DecimalZ.to_int_inj.
Qed.

(** ** converters.py *)

Module Converters.

Definition truthy : list string := ["true"; "t"; "yes"; "y"; "on"; "1"].
Definition falsy : list string := ["false"; "f"; "no"; "n"; "off"; "0"].

(** [f"Cannot convert {val!r} to bool"] *)
Definition cannot_convert (val : pyvalue) : message :=
  [Lit "Cannot convert "; Repr val; Lit " to bool"].

(** The body of [if isinstance(val, (str, int)):] in [to_bool], on
    [text = str(val)]: [val] is rebound to [str(val).lower()] and looked up
    in the two tuples; when neither holds it control falls through to the
    final [raise], which formats the rebound [val]. *)
Definition to_bool_text (text : string) : result pyvalue :=
  let val := lower text in
  if str_in val truthy then Ok (VBool true)
  else if str_in val falsy then Ok (VBool false)
  else Raise (ValueError (cannot_convert (VStr val))).

(** [to_bool(val)].  The first test is [isinstance(val, bool)], the second
    [isinstance(val, (str, int))]. *)
Definition to_bool (val : pyvalue) : result pyvalue :=
  match val with
  | VBool _ => Ok val
  | VStr s => to_bool_text s
  | VInt z => to_bool_text (str_of_int z)
  | _ => Raise (ValueError (cannot_convert val))
  end.

(** [s] is one of the tokens [ts] up to case. *)
Definition token_of (ts : list string) (s : string) : Prop :=
  exists t, In t ts /\ eq_nocase s t = true.


Example to_bool_yes : to_bool (VStr "YES") = Ok (VBool true).
Proof. reflexivity. Qed.

Example to_bool_maybe :
  to_bool (VStr "maybe") = Raise (ValueError (cannot_convert (VStr "maybe"))).
Proof. reflexivity. Qed.

Example to_bool_two :
  to_bool (VInt 2) = Raise (ValueError (cannot_convert (VStr "2"))).
Proof. reflexivity. Qed.

Lemma lower_token t : In t (truthy ++ falsy) -> lower t = t.
Proof.
  simpl. intros H.
  repeat (destruct H as [<- | H]; [reflexivity|]). contradiction.
Qed.

Lemma str_in_token ts s :
  (forall t, In t ts -> lower t = t) ->
  str_in (lower s) ts = true <-> token_of ts s.
Proof.
  intros Hlow. rewrite str_in_In. unfold token_of. split.
  - intros Hin. exists (lower s). split; [assumption|].
    apply eq_nocase_lower. symmetry. now apply Hlow.
  - intros [t [Hin Heq]]. apply eq_nocase_lower in Heq.
    rewrite Heq, (Hlow t Hin). assumption.
Qed.

Lemma truthy_falsy_disjoint s : str_in s truthy = true -> str_in s falsy = false.
Proof.
  rewrite str_in_In. simpl. intros H.
  repeat (destruct H as [<- | H]; [reflexivity|]). contradiction.
Qed.

Lemma to_bool_text_true s :
  to_bool_text s = Ok (VBool true) <-> token_of truthy s.
Proof.
  rewrite <- str_in_token
    by (intros t Ht; apply lower_token, in_or_app; now left).
  unfold to_bool_text.
  destruct (str_in (lower s) truthy); [tauto|].
  destruct (str_in (lower s) falsy); split; discriminate.
Qed.

Lemma to_bool_text_false s :
  to_bool_text s = Ok (VBool false) <-> token_of falsy s.
Proof.
  rewrite <- str_in_token
    by (intros t Ht; apply lower_token, in_or_app; now right).
  unfold to_bool_text.
  destruct (str_in (lower s) truthy) eqn:Ht.
  - rewrite (truthy_falsy_disjoint _ Ht). split; discriminate.
  - destruct (str_in (lower s) falsy); [tauto | split; discriminate].
Qed.

Lemma to_bool_text_cases s :
  to_bool_text s = Ok (VBool true) \/ to_bool_text s = Ok (VBool false) \/
  to_bool_text s = Raise (ValueError (cannot_convert (VStr (lower s)))).
Proof.
  unfold to_bool_text.
  destruct (str_in (lower s) truthy); [now left|].
  destruct (str_in (lower s) falsy); [right; now left | right; now right].
Qed.

Lemma lower_str_of_int z : lower (str_of_int z) = str_of_int z.
Proof.
  assert (Hu : forall u, lower (NilEmpty.string_of_uint u) = NilEmpty.string_of_uint u).
  { induction u; simpl; try rewrite IHu; reflexivity. }
  assert (Hz : forall u, lower (NilZero.string_of_uint u) = NilZero.string_of_uint u).
  { intros u. destruct u; try reflexivity; apply Hu. }
  unfold str_of_int, NilZero.string_of_int.
  destruct (Z.to_int z); simpl; now rewrite Hz.
Qed.

Lemma str_of_int_literal z t :
  t = str_of_int z -> NilZero.int_of_string t = Some (Z.to_int z).
Proof.
  intros ->. unfold str_of_int. apply NilZero.isi;
    destruct z; simpl; try discriminate;
    intros E; injection E as E; now apply Unsigned.to_uint_nonnil in E.
Qed.

Lemma str_of_int_token z :
  (str_in (str_of_int z) truthy = true <-> z = 1) /\
  (str_in (str_of_int z) falsy = true <-> z = 0).
Proof.
  split; (split; [| intros ->; reflexivity]);
    rewrite str_in_In; simpl; intros H;
    repeat (destruct H as [H | H];
            [ apply str_of_int_literal in H; simpl in H;
              first [ discriminate
                    | injection H as H;
                      first [ apply (DecimalZ.to_int_inj 1) in H
                            | apply (DecimalZ.to_int_inj 0) in H ];
                      now subst ]
            | ]);
    contradiction.
Qed.

Lemma to_bool_int z :
  (to_bool (VInt z) = Ok (VBool true) <-> z = 1) /\
  (to_bool (VInt z) = Ok (VBool false) <-> z = 0).
Proof.
  destruct (str_of_int_token z) as [Ht Hf].
  simpl. unfold to_bool_text. rewrite lower_str_of_int.
  destruct (str_in (str_of_int z) truthy) eqn:Et.
  - assert (z = 1) by now apply Ht.
    split; split; intros E; try reflexivity; try discriminate; lia.
  - destruct (str_in (str_of_int z) falsy) eqn:Ef.
    + assert (z = 0) by now apply Hf.
      split; split; intros E; try reflexivity; try discriminate; lia.
    + split; split; intros E; try discriminate;
        [apply Ht in E | apply Hf in E]; discriminate.
Qed.

(** C6. [to_bool] returns [True] exactly for [True], the integer [1] and
    the texts that are one of "true", "t", "yes", "y", "on", "1" up to case;
    it returns [False] exactly for [False], the integer [0] and the texts
    that are one of "false", "f", "no", "n", "off", "0" up to case; on every
    other input it raises [ValueError] with the message
    [Cannot convert <input> to bool], where the input is shown as the
    function holds it when it raises: the object itself, or its lower-cased
    text when it is a text or an integer. *)
Theorem to_bool_table (v : pyvalue) :
  (to_bool v = Ok (VBool true) <->
     v = VBool true \/ v = VInt 1 \/ exists s, v = VStr s /\ token_of truthy s) /\
  (to_bool v = Ok (VBool false) <->
     v = VBool false \/ v = VInt 0 \/ exists s, v = VStr s /\ token_of falsy s) /\
  (to_bool v = Ok (VBool true) \/ to_bool v = Ok (VBool false) \/
   to_bool v =
     Raise (ValueError [Lit "Cannot convert ";
                        Repr match v with
                             | VStr s => VStr (lower s)
                             | VInt z => VStr (str_of_int z)
                             | _ => v
                             end;
                        Lit " to bool"])).
Proof.
  destruct v as [ | b | z | s | xs | xs | xs | xs | items | c d ];
    try (split; [|split];
         [ split; [discriminate | intros [H | [H | [s [H _]]]]; discriminate]
         | split; [discriminate | intros [H | [H | [s [H _]]]]; discriminate]
         | right; right; reflexivity ]).
  - (* bool *)
    split; [|split].
    + split; [intros H; injection H as ->; now left
             | intros [H | [H | [s [H _]]]]; try discriminate; now rewrite H].
    + split; [intros H; injection H as ->; now left
             | intros [H | [H | [s [H _]]]]; try discriminate; now rewrite H].
    + destruct b; [now left | right; now left].
  - (* int *)
    destruct (to_bool_int z) as [Ht Hf]. split; [|split].
    + rewrite Ht. split; [intros ->; right; now left
                         | intros [H | [H | [s [H _]]]]; try discriminate; congruence].
    + rewrite Hf. split; [intros ->; right; now left
                         | intros [H | [H | [s [H _]]]]; try discriminate; congruence].
    + destruct (to_bool_text_cases (str_of_int z)) as [H | [H | H]];
        [now left | right; now left |].
      right; right. simpl. rewrite H, lower_str_of_int. reflexivity.
  - (* str *)
    split; [|split].
    + simpl. rewrite to_bool_text_true. split.
      * intros H. right; right. now exists s.
      * intros [H | [H | [s' [H Ht]]]]; try discriminate. now injection H as ->.
    + simpl. rewrite to_bool_text_false. split.
      * intros H. right; right. now exists s.
      * intros [H | [H | [s' [H Ht]]]]; try discriminate. now injection H as ->.
    + destruct (to_bool_text_cases s) as [H | [H | H]];
        [now left | right; now left |].
      right; right. exact H.
Qed.

(** *** More of converters.py *)

(** [to_bool] does not tell two texts apart that differ in case only: it
    returns the same boolean, or raises the same [ValueError] with the same
    message, for both. *)
Theorem to_bool_ignores_case (s t : string) :
  eq_nocase s t = true -> to_bool (VStr s) = to_bool (VStr t).
Proof.
  intros H. apply eq_nocase_lower in H. simpl. unfold to_bool_text.
  now rewrite H.
Qed.

Lemma to_bool_ignores_case_witness :
  eq_nocase "Yes" "yES" = true /\ to_bool (VStr "Yes") = to_bool (VStr "yES").
Proof.
  split; [reflexivity | apply (to_bool_ignores_case "Yes" "yES"); reflexivity].
Defined.

(** Whatever [to_bool] returns is a [bool], and [to_bool] maps it to
    itself: converting twice is converting once. *)
Theorem to_bool_idempotent (v r : pyvalue) :
  to_bool v = Ok r -> (exists b, r = VBool b) /\ to_bool r = Ok r.
Proof.
  assert (Htext : forall s, to_bool_text s = Ok r ->
                            (exists b, r = VBool b) /\ to_bool r = Ok r).
  { intros s Hs. destruct (to_bool_text_cases s) as [H | [H | H]];
      rewrite H in Hs; try discriminate; injection Hs as <-;
      (split; [eexists; reflexivity | reflexivity]). }
  destruct v; simpl; intros H; try discriminate; try (now apply (Htext _ H)).
  injection H as <-. split; [eexists; reflexivity | reflexivity].
Qed.

Lemma to_bool_idempotent_witness :
  to_bool (VStr "on") = Ok (VBool true) /\
  (exists b, VBool true = VBool b) /\ to_bool (VBool true) = Ok (VBool true).
Proof.
  split; [reflexivity | apply (to_bool_idempotent (VStr "on")); reflexivity].
Defined.

(** [optional(converter)] *)
Definition optional (converter : pyvalue -> result pyvalue) : pyvalue -> result pyvalue :=
  let optional_converter (value : pyvalue) :=
    match value with
    | VNone => Ok VNone
    | _ => converter value
    end in
  optional_converter.

(** [optional(converter)] raises only where [converter] itself raises, and
    never on [None]. *)
Theorem optional_raises_as_inner (converter : pyvalue -> result pyvalue)
  (v : pyvalue) (e : exn) :
  optional converter v = Raise e -> v <> VNone /\ converter v = Raise e.
Proof.
  destruct v; simpl; intros H; try discriminate; (split; [discriminate | exact H]).
Qed.

Lemma optional_raises_as_inner_witness :
  optional to_bool (VStr "maybe") = Raise (ValueError (cannot_convert (VStr "maybe"))) /\
  VStr "maybe" <> VNone /\
  to_bool (VStr "maybe") = Raise (ValueError (cannot_convert (VStr "maybe"))).
Proof.
  split; [reflexivity|].
  apply (optional_raises_as_inner to_bool (VStr "maybe")). reflexivity.
Defined.

(** Wrapping a converter in [optional] twice is wrapping it once. *)
Theorem optional_idempotent (converter : pyvalue -> result pyvalue) (v : pyvalue) :
  optional (optional converter) v = optional converter v.
Proof. destruct v; reflexivity. Qed.

(** The objects that go through [default_if_none] and the converter it
    makes: the sentinel [NOTHING], an [attrs.Factory] with its [factory]
    and [takes_self], or any other object.  A factory is called with no
    argument and may return any of these. *)
Inductive pyobject :=
| NOTHING
| Factory (factory : unit -> result pyobject) (takes_self : bool)
| Plain (v : pyvalue).

(** The closure [default_if_none_converter] over [default] and [factory] as
    they are bound when [default_if_none] returns.  It hands back [value],
    [factory()] and [default] as they are. *)
Definition default_if_none_converter (default : pyobject)
  (factory : option (unit -> result pyobject)) (value : pyobject) : result pyobject :=
  match value with
  | Plain VNone =>
      match factory with
      | Some f => f tt
      | None => Ok default
      end
  | _ => Ok value
  end.

(** [default_if_none(default=NOTHING, factory=None)] *)
Definition default_if_none (default : pyobject)
  (factory : option (unit -> result pyobject))
  : result (pyobject -> result pyobject) :=
  match default, factory with
  | NOTHING, None =>
      Raise (TypeError [Lit "Must pass either `default` or `factory`."])
  | (Factory _ _ | Plain _), Some _ =>
      Raise (TypeError [Lit "Must pass either `default` or `factory`, not both."])
  | Factory f takes_self, None =>
      if takes_self
      then Raise (ValueError [Lit "Factory cannot have `takes_self=True`."])
      else Ok (default_if_none_converter NOTHING (Some f))
  | _, _ => Ok (default_if_none_converter default factory)
  end.

(** [default_if_none] returns a converter exactly when one of [default]
    and [factory] is given and not both, and [default] is not a [Factory]
    that takes [self]; it raises [TypeError] when neither or both are given
    and [ValueError] for such a [Factory]. *)
Theorem default_if_none_arguments (default : pyobject)
  (factory : option (unit -> result pyobject)) :
  ((exists c, default_if_none default factory = Ok c) <->
   ((default = NOTHING /\ factory <> None) \/
    (default <> NOTHING /\ factory = None /\
     forall f, default <> Factory f true))) /\
  ((exists msg, default_if_none default factory = Raise (TypeError msg)) <->
   ((default = NOTHING /\ factory = None) \/
    (default <> NOTHING /\ factory <> None))) /\
  ((exists msg, default_if_none default factory = Raise (ValueError msg)) <->
   (factory = None /\ exists f, default = Factory f true)).
Proof.
  destruct default as [ | f [|] | v ], factory as [g|]; simpl;
    (split; [|split]); split;
    try (intros [c H]; discriminate H);
    try (intros [[H1 H2] | [H1 [H2 H3]]]; congruence);
    try (intros [[H1 H2] | [H1 H2]]; congruence);
    try (intros [H1 [f' H2]]; congruence);
    intros _.
  all: try (eexists; reflexivity).
  all: try (left; split; congruence).
  all: try (right; split; congruence).
  all: try (right; split; [congruence | split; [reflexivity | congruence]]).
  all: try (split; [reflexivity | eexists; reflexivity]).
Qed.

(** A converter made by [default_if_none] hands back every object other
    than [None] as it is (the sentinel [NOTHING] and [Factory] objects
    too).  For [None] it returns the default itself when a default that is
    no [Factory] was given, and otherwise what the factory returns or
    raises: the one given as [factory], or the one taken out of a [Factory]
    given as default, which is called and not returned. *)
Theorem default_if_none_converter_returns (default : pyobject)
  (factory : option (unit -> result pyobject)) (c : pyobject -> result pyobject) :
  default_if_none default factory = Ok c ->
  (forall value, value <> Plain VNone -> c value = Ok value) /\
  c (Plain VNone) =
  match default, factory with
  | Factory f _, _ => f tt
  | _, Some f => f tt
  | _, None => Ok default
  end.
Proof.
  assert (Hpass : forall d g value, value <> Plain VNone ->
                    default_if_none_converter d g value = Ok value).
  { intros d g value Hv. destruct value as [ | f ts | v ]; try reflexivity.
    destruct v; try reflexivity. contradiction. }
  destruct default as [ | f [|] | v ], factory as [g|]; simpl; intros H;
    try discriminate; injection H as <-; (split; [now apply Hpass | reflexivity]).
Qed.

Lemma default_if_none_converter_returns_witness :
  default_if_none (Plain (VInt 0)) None =
    Ok (default_if_none_converter (Plain (VInt 0)) None) /\
  (forall value, value <> Plain VNone ->
                 default_if_none_converter (Plain (VInt 0)) None value = Ok value) /\
  default_if_none_converter (Plain (VInt 0)) None (Plain VNone) = Ok (Plain (VInt 0)).
Proof.
  split; [reflexivity|].
  apply (default_if_none_converter_returns (Plain (VInt 0)) None). reflexivity.
Defined.

(** [default_if_none(factory=list)] and
    [default_if_none(Factory(list))] on [None], and the sentinel going
    through a converter as any other object. *)
Definition new_list : unit -> result pyobject := fun _ => Ok (Plain (VList [])).

Example default_if_none_factory :
  (c <- default_if_none NOTHING (Some new_list);; c (Plain VNone)) =
    Ok (Plain (VList [])) /\
  (c <- default_if_none (Factory new_list false) None;; c (Plain VNone)) =
    Ok (Plain (VList [])) /\
  (c <- default_if_none (Plain (VInt 0)) None;; c NOTHING) = Ok NOTHING.
Proof. repeat split. Qed.

End Converters.

(** ** Fields *)

(** A function object is known by its identity; what calling it does is
    given where it is called. *)
Definition callable := nat.

(** An [attr.Attribute], with the slots the sources read or write:
    [name], [init], [validator] and [converter] are read, [type] is written
    by [resolve_types].  Every such object is an instance of the one class
    [Attribute], so [a.__class__] is [T_Attribute] whatever [a.type] is. *)
Record Attribute := mkAttribute {
  name : string;
  type : option pytype;
  init : bool;
  validator : option callable;
  converter : option callable
}.

(** ** filters.py *)

Module Filters.

(** What [include] and [exclude] are given: a class, a field name or an
    [Attribute]. *)
Inductive selector :=
| SelType (t : pytype)
| SelName (n : string)
| SelAttr (a : Attribute).

Section WithAttributeEq.

(** [Attribute.__eq__], generated in [_make.py]. *)
Variable Attribute_eq : Attribute -> Attribute -> bool.

(** [isinstance(w, type)] *)
Definition is_type (w : selector) : bool :=
  match w with
  | SelType _ => true
  | _ => false
  end.

(** [x == y] between two objects that may be selectors: a class is equal
    to itself only, a [str] to an equal [str], an [Attribute] to the
    [Attribute]s that its [__eq__] accepts, and objects of two of these
    kinds are never equal. *)
Definition sel_eq (x y : selector) : bool :=
  match x, y with
  | SelType s, SelType t => pytype_eqb s t
  | SelName m, SelName n => String.eqb m n
  | SelAttr a, SelAttr b => Attribute_eq a b
  | _, _ => false
  end.

(** [x in s] for a [frozenset] [s], kept as the list of its elements. *)
Definition contains (x : selector) (s : list selector) : bool :=
  existsb (sel_eq x) s.

Definition _split_what (what : list selector) : list selector * list selector :=
  let classes := filter is_type what in
  let attributes := filter (fun attr => negb (is_type attr)) what in
  (classes, attributes).

Definition include (what : list selector) : Attribute -> pyvalue -> bool :=
  let '(classes, attributes) := _split_what what in
  let include_filter (attribute : Attribute) (value : pyvalue) :=
    contains (SelName (name attribute)) attributes
    || contains (SelType T_Attribute) classes
    || contains (SelAttr attribute) attributes in
  include_filter.

Definition exclude (what : list selector) : Attribute -> pyvalue -> bool :=
  let '(classes, attributes) := _split_what what in
  let exclude_filter (attribute : Attribute) (value : pyvalue) :=
    negb (contains (SelName (name attribute)) attributes
          || contains (SelType T_Attribute) classes
          || contains (SelAttr attribute) attributes) in
  exclude_filter.

(** The three sets the specification speaks of. *)
Definition name_set (what : list selector) (n : string) : Prop :=
  In (SelName n) what.
Definition type_set (what : list selector) (t : pytype) : Prop :=
  In (SelType t) what.
Definition identity_set (what : list selector) (a : Attribute) : Prop :=
  exists b, In (SelAttr b) what /\ Attribute_eq a b = true.

Lemma contains_name what n :
  contains (SelName n) (snd (_split_what what)) = true <-> name_set what n.
Proof.
  unfold contains, name_set. simpl. rewrite existsb_exists. split.
  - intros [w [Hin Heq]]. apply filter_In in Hin as [Hin _].
    destruct w; simpl in Heq; try discriminate.
    apply String.eqb_eq in Heq. now subst.
  - intros Hin. exists (SelName n). split.
    + apply filter_In. now split.
    + simpl. apply String.eqb_refl.
Qed.

Lemma contains_type what t :
  contains (SelType t) (fst (_split_what what)) = true <-> type_set what t.
Proof.
  unfold contains, type_set. simpl. rewrite existsb_exists. split.
  - intros [w [Hin Heq]]. apply filter_In in Hin as [Hin _].
    destruct w; simpl in Heq; try discriminate.
    apply pytype_eqb_eq in Heq. now subst.
  - intros Hin. exists (SelType t). split.
    + apply filter_In. now split.
    + simpl. now apply pytype_eqb_eq.
Qed.

Lemma contains_attr what a :
  contains (SelAttr a) (snd (_split_what what)) = true <-> identity_set what a.
Proof.
  unfold contains, identity_set. simpl. rewrite existsb_exists. split.
  - intros [w [Hin Heq]]. apply filter_In in Hin as [Hin _].
    destruct w; simpl in Heq; try discriminate. now exists a0.
  - intros [b [Hin Heq]]. exists (SelAttr b). split.
    + apply filter_In. now split.
    + exact Heq.
Qed.

(** What [include] tests: the name, the class of the [Attribute] object
    itself, and the [Attribute]. *)
Lemma include_iff what a v :
  include what a v = true <->
  name_set what (name a) \/ type_set what T_Attribute \/ identity_set what a.
Proof.
  unfold include.
  change (_split_what what) with (fst (_split_what what), snd (_split_what what)).
  cbv beta iota. rewrite !orb_true_iff, contains_name, contains_type, contains_attr.
  tauto.
Qed.

Lemma exclude_negb_include what a v : exclude what a v = negb (include what a v).
Proof. reflexivity. Qed.

(** C8. For every selector list and every field/value pair, exactly one of
    [include(what)] and [exclude(what)] accepts the pair: never both and
    never neither. *)
Theorem include_exclude_complement (what : list selector) (a : Attribute) (v : pyvalue) :
  (include what a v = true /\ exclude what a v = false) \/
  (include what a v = false /\ exclude what a v = true).
Proof.
  rewrite exclude_negb_include.
  destruct (include what a v); [left | right]; split; reflexivity.
Qed.

(** C10. The filters made by [include] and [exclude] never look at the
    value: on one field they answer the same for any two values. *)
Theorem filters_ignore_value (what : list selector) (a : Attribute) (v1 v2 : pyvalue) :
  include what a v1 = include what a v2 /\ exclude what a v1 = exclude what a v2.
Proof. split; reflexivity. Qed.

(** *** More of filters.py *)

Lemma contains_app x s t : contains x (s ++ t)%list = contains x s || contains x t.
Proof. unfold contains. apply existsb_app. Qed.

Lemma split_what_app what1 what2 :
  _split_what (what1 ++ what2)%list =
  ((fst (_split_what what1) ++ fst (_split_what what2))%list,
   (snd (_split_what what1) ++ snd (_split_what what2))%list).
Proof. unfold _split_what. simpl. now rewrite !filter_app. Qed.

(** Selectors add up: the filter that [include] makes of two lists of
    selectors put together accepts what either of the two filters accepts,
    and the one that [exclude] makes accepts what both accept. *)
Theorem include_exclude_app (what1 what2 : list selector) (a : Attribute) (v : pyvalue) :
  include (what1 ++ what2) a v = include what1 a v || include what2 a v /\
  exclude (what1 ++ what2) a v = exclude what1 a v && exclude what2 a v.
Proof.
  assert (H : include (what1 ++ what2) a v = include what1 a v || include what2 a v).
  { unfold include. rewrite split_what_app. simpl. rewrite !contains_app.
    repeat match goal with |- context [contains ?x ?l] =>
      let b := fresh "b" in generalize (contains x l); intros b end.
    repeat match goal with b : bool |- _ => destruct b end; reflexivity. }
  split; [exact H|].
  rewrite !exclude_negb_include, H. apply negb_orb.
Qed.

(** The selectors are held as sets: two lists with the same members, in
    whatever order and however often repeated, make the same filters. *)
Theorem filters_same_members (what1 what2 : list selector) (a : Attribute) (v : pyvalue) :
  (forall x, In x what1 <-> In x what2) ->
  include what1 a v = include what2 a v /\ exclude what1 a v = exclude what2 a v.
Proof.
  intros Hsame.
  assert (H : include what1 a v = include what2 a v).
  { apply Bool.eq_iff_eq_true. rewrite !include_iff.
    unfold name_set, type_set, identity_set. rewrite !Hsame.
    split; (intros [H | [H | [b [Hb He]]]];
            [now left | right; now left | right; right; exists b; split;
                                          [now apply Hsame | assumption]]). }
  split; [exact H|]. now rewrite !exclude_negb_include, H.
Qed.

(** With field names and [Attribute]s as the only selectors, [include]
    accepts exactly the fields whose name is listed or that are equal to a
    listed [Attribute]; with no selector at all it accepts none. *)
Theorem include_names_and_attributes (names : list string) (attrs : list Attribute)
  (a : Attribute) (v : pyvalue) :
  include (map SelName names ++ map SelAttr attrs) a v = true <->
  In (name a) names \/ exists b, In b attrs /\ Attribute_eq a b = true.
Proof.
  rewrite include_iff. unfold name_set, type_set, identity_set.
  split.
  - intros [H | [H | [b [Hb He]]]].
    + apply in_app_or in H as [H | H].
      * apply in_map_iff in H as [n [Hn Hin]]. injection Hn as ->. now left.
      * apply in_map_iff in H as [b [Hb _]]. discriminate.
    + apply in_app_or in H as [H | H];
        apply in_map_iff in H as [x [Hx _]]; discriminate.
    + apply in_app_or in Hb as [Hb | Hb].
      * apply in_map_iff in Hb as [n [Hn _]]. discriminate.
      * apply in_map_iff in Hb as [b' [Hb' Hin]]. injection Hb' as ->.
        right. now exists b.
  - intros [H | [b [Hb He]]].
    + left. apply in_or_app. left. now apply in_map.
    + right; right. exists b. split; [|assumption].
      apply in_or_app. right. now apply in_map.
Qed.

(** [_split_what] sorts every selector into one of its two sets and only
    one: the classes go to the first, names and [Attribute]s to the second,
    and nothing is lost or made up. *)
Theorem split_what_partition (what : list selector) (x : selector) :
  (In x (fst (_split_what what)) <-> In x what /\ is_type x = true) /\
  (In x (snd (_split_what what)) <-> In x what /\ is_type x = false).
Proof.
  unfold _split_what. simpl. rewrite !filter_In, negb_true_iff. tauto.
Qed.

End WithAttributeEq.

(** Equality of two [Attribute]s slot by slot, the way an [__eq__]
    generated over these slots compares them. *)
Definition Attribute_eqb (a b : Attribute) : bool :=
  String.eqb (name a) (name b)
  && match type a, type b with
     | Some s, Some t => pytype_eqb s t
     | None, None => true
     | _, _ => false
     end
  && Bool.eqb (init a) (init b)
  && match validator a, validator b with
     | Some f, Some g => Nat.eqb f g
     | None, None => true
     | _, _ => false
     end
  && match converter a, converter b with
     | Some f, Some g => Nat.eqb f g
     | None, None => true
     | _, _ => false
     end.

(** The field [x: int] and the filter [include(int)]. *)
Definition field_x : Attribute :=
  {| name := "x"; type := Some T_int; init := true;
     validator := None; converter := None |}.

(** C4. [include(int)] does not accept the field [x: int] holding [5]:
    a class given to [include] is compared with the class of the
    [Attribute] object, never with the declared type of the field (nor with
    the class of its value), so [include(T)] accepts no field at all unless
    [T] is [Attribute] itself, and then it accepts every field. *)
Theorem include_type_ignores_declared_type :
  type field_x = Some T_int /\
  include Attribute_eqb [SelType T_int] field_x (VInt 5) = false /\
  (forall eq T a v, include eq [SelType T] a v = pytype_eqb T_Attribute T).
Proof.
  split; [reflexivity|]. split; [reflexivity|].
  intros eq T a v. unfold include. simpl. now rewrite !orb_false_r.
Qed.

Lemma filters_same_members_witness :
  (forall x, In x [SelName "x"; SelName "y"] <->
             In x [SelName "y"; SelName "x"; SelName "x"]) /\
  include Attribute_eqb [SelName "x"; SelName "y"] field_x VNone =
    include Attribute_eqb [SelName "y"; SelName "x"; SelName "x"] field_x VNone /\
  exclude Attribute_eqb [SelName "x"; SelName "y"] field_x VNone =
    exclude Attribute_eqb [SelName "y"; SelName "x"; SelName "x"] field_x VNone.
Proof.
  assert (H : forall x, In x [SelName "x"; SelName "y"] <->
                        In x [SelName "y"; SelName "x"; SelName "x"])
    by (intros x; simpl; tauto).
  split; [exact H|].
  apply (filters_same_members Attribute_eqb
           [SelName "x"; SelName "y"] [SelName "y"; SelName "x"; SelName "x"]
           field_x VNone H).
Defined.

End Filters.

(** ** _cmp.py *)

Module Cmp.

(** What a rich-comparison method hands back: the singleton
    [NotImplemented] or an object. *)
Inductive outcome :=
| NotImplemented
| Returned (v : pyvalue).

(** A method [(self, other)] of a comparable class, and a function
    [(a, b)] as the caller of [cmp_using] supplies for [eq], [lt], ... *)
Definition method := pyvalue -> pyvalue -> result outcome.
Definition predicate := pyvalue -> pyvalue -> result pyvalue.

Inductive member :=
| Init (f : pyvalue -> pyvalue -> result pyvalue)
| Operator (m : method).

(** A class object: its identity, its [__name__] and its namespace. *)
Record class_obj := mkClass {
  cls : pytype;
  cls_name : string;
  body : list (string * member)
}.

(** [type(class_name, (), body)] makes a class that did not exist before;
    the interpreter's count of the classes made so far goes through. *)
Definition new_type (class_name : string) (body : list (string * member))
  (next : nat) : class_obj * nat :=
  ({| cls := T_class next; cls_name := class_name; body := body |}, S next).

(** [o.n = v] *)
Definition setattr (o : pyvalue) (n : string) (v : pyvalue) : result pyvalue :=
  match o with
  | VObj c d => Ok (VObj c (update n v d))
  | _ => Raise (AttributeError n)
  end.

(** Truth value of an object, as [not] takes it. *)
Definition truth (v : pyvalue) : bool :=
  match v with
  | VNone => false
  | VBool b => b
  | VInt z => negb (z =? 0)
  | VStr s => negb (String.eqb s "")
  | VTuple xs | VList xs | VSet xs | VFrozenset xs =>
      match xs with [] => false | _ => true end
  | VDict items => match items with [] => false | _ => true end
  | VObj _ _ => true
  end.

Section CmpUsing.

Variables eq lt le gt ge : option predicate.
Variable require_same_type : bool.
Variable class_name : string.

Definition _make_method (name : string) (op : predicate) : method :=
  fun self other =>
    if require_same_type && negb (pytype_eqb (type_of self) (type_of other))
    then Ok NotImplemented
    else
      a <- getattr self "value";;
      b <- getattr other "value";;
      r <- op a b;;
      Ok (Returned r).

Definition _make_init : pyvalue -> pyvalue -> result pyvalue :=
  fun self value => setattr self "value" value.

(** Modelled from the spec: [_make_ne] is imported from [_make.py], which
    is not among the sources.  The inequality operator is derived from the
    class's own [__eq__] as its logical negation, and hands back
    [NotImplemented] whenever [__eq__] does. *)
Definition _make_ne (eq_method : method) : method :=
  fun self other =>
    result <- eq_method self other;;
    match result with
    | NotImplemented => Ok NotImplemented
    | Returned r => Ok (Returned (VBool (negb (truth r))))
    end.

(** [if op is not None: body[name] = _make_method(name, op)] *)
Definition wire (name : string) (op : option predicate) : list (string * member) :=
  match op with
  | Some f => [(name, Operator (_make_method name f))]
  | None => []
  end.

(** [body["__eq__"]] and [body["__ne__"]], set together when [eq] is
    given. *)
Definition wire_eq : list (string * member) :=
  match eq with
  | Some f =>
      [("__eq__", Operator (_make_method "__eq__" f));
       ("__ne__", Operator (_make_ne (_make_method "__eq__" f)))]
  | None => []
  end.

Definition cmp_using : nat -> class_obj * nat :=
  let body :=
    ([("__init__", Init _make_init)]
       ++ wire_eq
       ++ wire "__lt__" lt
       ++ wire "__le__" le
       ++ wire "__gt__" gt
       ++ wire "__ge__" ge)%list in
  new_type class_name body.

(** The function given for the operator of that name. *)
Definition supplied (name : string) : option predicate :=
  if String.eqb name "__eq__" then eq
  else if String.eqb name "__lt__" then lt
  else if String.eqb name "__le__" then le
  else if String.eqb name "__gt__" then gt
  else if String.eqb name "__ge__" then ge
  else None.

End CmpUsing.

(** The operator a class has under a name. *)
Definition operator_of (C : class_obj) (name : string) : option method :=
  match lookup name (body C) with
  | Some (Operator m) => Some m
  | _ => None
  end.

(** [C(value)]: a new instance, initialised by [__init__]. *)
Definition instantiate (C : class_obj) (v : pyvalue) : result pyvalue :=
  match lookup "__init__" (body C) with
  | Some (Init f) => f (VObj (cls C) []) v
  | _ => Raise (TypeError [Lit "takes no arguments"])
  end.

(** [m] follows the same-type policy for the function [p]: on operands of
    two different classes it hands back [NotImplemented] and raises
    nothing; on operands of one class it calls [p] on the two wrapped
    values and returns [post] of what [p] returned. *)
Definition same_type_policy (m : method) (p : predicate) (post : pyvalue -> pyvalue) : Prop :=
  forall self other,
    (type_of self <> type_of other -> m self other = Ok NotImplemented) /\
    (type_of self = type_of other ->
     forall a b,
       getattr self "value" = Ok a ->
       getattr other "value" = Ok b ->
       m self other = (r <- p a b;; Ok (Returned (post r)))).

Lemma make_method_policy name p :
  same_type_policy (_make_method true name p) p (fun r => r).
Proof.
  intros self other. unfold _make_method. simpl. split.
  - intros Hne. destruct (pytype_eqb (type_of self) (type_of other)) eqn:E.
    + apply pytype_eqb_eq in E. contradiction.
    + reflexivity.
  - intros Heq a b Ha Hb.
    apply pytype_eqb_eq in Heq. rewrite Heq, Ha, Hb. reflexivity.
Qed.

Lemma make_ne_policy m p :
  same_type_policy m p (fun r => r) ->
  same_type_policy (_make_ne m) p (fun r => VBool (negb (truth r))).
Proof.
  intros Hm self other. destruct (Hm self other) as [Hdiff Hsame].
  unfold _make_ne. split.
  - intros Hne. now rewrite (Hdiff Hne).
  - intros Heq a b Ha Hb. rewrite (Hsame Heq a b Ha Hb).
    destruct (p a b); reflexivity.
Qed.

Lemma supplied_name eq lt le gt ge nm p :
  supplied eq lt le gt ge nm = Some p ->
  (nm = "__eq__" /\ eq = Some p) \/ (nm = "__lt__" /\ lt = Some p) \/
  (nm = "__le__" /\ le = Some p) \/ (nm = "__gt__" /\ gt = Some p) \/
  (nm = "__ge__" /\ ge = Some p).
Proof.
  unfold supplied.
  repeat match goal with
         | |- context [String.eqb nm ?k] =>
             let E := fresh "E" in
             destruct (String.eqb nm k) eqn:E;
             [apply String.eqb_eq in E; intros H; tauto |]
         end.
  discriminate.
Qed.

(** A class made by two calls of [cmp_using] in a row are two classes,
    whatever their names. *)
Lemma cmp_using_fresh eq lt le gt ge rst name eq' lt' le' gt' ge' rst' name' next :
  let '(C1, next1) := cmp_using eq lt le gt ge rst name next in
  let '(C2, _) := cmp_using eq' lt' le' gt' ge' rst' name' next1 in
  cls C1 <> cls C2.
Proof. simpl. intros H. injection H as H. lia. Qed.

(** C2. In a class built by [cmp_using] with [require_same_type=True],
    each operator for which a function was given ([__eq__], [__lt__],
    [__le__], [__gt__], [__ge__]) is there and, applied to two operands of
    different classes, hands back [NotImplemented] without raising; applied
    to two operands of one class it returns what the given function returns
    on the two wrapped values.  When [eq] is given, [__ne__] is there too,
    hands back [NotImplemented] in the same case, and otherwise returns the
    negation of what [eq] returns. *)
Theorem cmp_using_same_type
  (eq lt le gt ge : option predicate) (class_name : string) (next : nat)
  (nm : string) (p : predicate) :
  supplied eq lt le gt ge nm = Some p ->
  let C := fst (cmp_using eq lt le gt ge true class_name next) in
  (exists m, operator_of C nm = Some m /\ same_type_policy m p (fun r => r)) /\
  (nm = "__eq__" ->
   exists m, operator_of C "__ne__" = Some m /\
             same_type_policy m p (fun r => VBool (negb (truth r)))).
Proof.
  intros H. apply supplied_name in H.
  destruct H as [[-> ->] | [[-> ->] | [[-> ->] | [[-> ->] | [-> ->]]]]];
    (split;
     [ repeat match goal with o : option predicate |- _ => destruct o end;
       eexists; (split; [reflexivity | apply make_method_policy])
     | intros Hnm; try discriminate Hnm;
       eexists; (split; [reflexivity | apply make_ne_policy, make_method_policy]) ]).
Qed.

(** Comparing [int]s for equality, and [cmp_using(eq=...)] with it. *)
Definition int_eq : predicate :=
  fun a b =>
    match a, b with
    | VInt x, VInt y => Ok (VBool (x =? y))
    | _, _ => Raise (TypeError [Lit "unsupported operand type(s)"])
    end.

Lemma cmp_using_same_type_witness :
  supplied (Some int_eq) None None None None "__eq__" = Some int_eq /\
  let C := fst (cmp_using (Some int_eq) None None None None true "Comparable" 0) in
  (exists m, operator_of C "__eq__" = Some m /\
             same_type_policy m int_eq (fun r => r)) /\
  ("__eq__" = "__eq__" ->
   exists m, operator_of C "__ne__" = Some m /\
             same_type_policy m int_eq (fun r => VBool (negb (truth r)))).
Proof.
  split; [reflexivity|].
  apply (cmp_using_same_type (Some int_eq) None None None None "Comparable" 0
           "__eq__" int_eq).
  reflexivity.
Defined.

(** *** More of _cmp.py *)

(** [hasattr(o, n)] *)
Definition hasattr (o : pyvalue) (n : string) : bool :=
  match getattr o n with
  | Ok _ => true
  | Raise _ => false
  end.

(** The functions at the level of the module, which [cmp_using] does not
    call.  ([_make_init] there is the same function as the one inside
    [cmp_using]; [_make_operator] also sets [method.__name__], which
    changes nothing in what the method does.) *)
Definition _check_same_type (self other : pyvalue) : bool :=
  pytype_eqb (type_of self) (type_of other).

Definition _is_comparable_to (self other : pyvalue) : bool :=
  hasattr other "value" && _check_same_type self other.

Definition _make_operator (name : string) (func : predicate) : method :=
  fun self other =>
    if negb (_is_comparable_to self other) then Ok NotImplemented
    else
      a <- getattr self "value";;
      b <- getattr other "value";;
      r <- func a b;;
      Ok (Returned r).


(** An operator made by [_make_operator] is one made inside
    [cmp_using(require_same_type=True)], except on an operand that has no
    attribute [value]: there it hands back [NotImplemented], also where the
    other one raises [AttributeError]. *)
Theorem make_operator_vs_make_method (name : string) (p : predicate)
  (self other : pyvalue) :
  _make_operator name p self other =
  if hasattr other "value" then _make_method true name p self other
  else Ok NotImplemented.
Proof.
  unfold _make_operator, _make_method, _is_comparable_to, _check_same_type.
  destruct (hasattr other "value"); simpl; [|reflexivity].
  destruct (pytype_eqb (type_of self) (type_of other)); reflexivity.
Qed.




(** Two calls of [cmp_using] make two classes, even with the same name and
    the same functions.  With [require_same_type=True] and [eq] given,
    [__eq__] between an instance of the first and an instance of the second
    hands back [NotImplemented], and between two instances of the first it
    returns what [eq] returns on the values they were made of. *)
Theorem cmp_using_instances
  (p : predicate) (lt le gt ge eq' lt' le' gt' ge' : option predicate)
  (require_same_type' : bool) (class_name class_name' : string) (next : nat)
  (v1 v2 : pyvalue) :
  let C1 := fst (cmp_using (Some p) lt le gt ge true class_name next) in
  let next1 := snd (cmp_using (Some p) lt le gt ge true class_name next) in
  let C2 := fst (cmp_using eq' lt' le' gt' ge' require_same_type' class_name' next1) in
  exists a1 b1 a2 m,
    instantiate C1 v1 = Ok a1 /\
    instantiate C1 v2 = Ok b1 /\
    instantiate C2 v2 = Ok a2 /\
    operator_of C1 "__eq__" = Some m /\
    m a1 a2 = Ok NotImplemented /\
    m a1 b1 = (r <- p v1 v2;; Ok (Returned r)).
Proof.
  simpl.
  exists (VObj (T_class next) [("value", v1)]),
         (VObj (T_class next) [("value", v2)]),
         (VObj (T_class (S next)) [("value", v2)]).
  eexists. repeat split.
  - unfold _make_method. simpl.
    destruct (pytype_eqb (T_class next) (T_class (S next))) eqn:E; [|reflexivity].
    apply pytype_eqb_eq in E. injection E as E. lia.
  - unfold _make_method. simpl.
    assert (E : pytype_eqb (T_class next) (T_class next) = true)
      by now apply pytype_eqb_eq.
    rewrite E. reflexivity.
Qed.

End Cmp.

(** ** setters.py *)

Module Setters.

Section WithWorld.

(** Hooks, validators and converters are arbitrary Python functions: they
    may raise and they may change the world around them (write a log, count
    their calls).  A computation takes the world as it is and gives back
    what it returned or raised together with the world as it left it. *)
Variable world : Type.

Definition M (A : Type) : Type := world -> result A * world.

Definition ret {A} (a : A) : M A := fun w => (Ok a, w).

Definition raise {A} (e : exn) : M A := fun w => (Raise e, w).

Definition mbind {A B} (m : M A) (k : A -> M B) : M B :=
  fun w =>
    match m w with
    | (Ok a, w') => k a w'
    | (Raise e, w') => (Raise e, w')
    end.

Notation "x <~ m ;; k" := (mbind m (fun x => k))
  (at level 61, m at next level, right associativity).

(** Calling the function object kept in [validator] with
    [(instance, attrib, value)], and the one kept in [converter] with
    [(value)]. *)
Variable call_validator : callable -> pyvalue -> Attribute -> pyvalue -> M pyvalue.
Variable call_converter : callable -> pyvalue -> M pyvalue.

(** A hook for [on_setattr]: [(instance, attribute, value)]. *)
Definition setter := pyvalue -> Attribute -> pyvalue -> M pyvalue.

(** The [for] loop of [pipe_setter]. *)
Fixpoint pipe_loop (setters : list setter) (instance : pyvalue)
  (attribute : Attribute) (value : pyvalue) : M pyvalue :=
  match setters with
  | [] => ret value
  | setter :: setters' =>
      value <~ setter instance attribute value;;
      pipe_loop setters' instance attribute value
  end.

Definition pipe (setters : list setter) : setter :=
  let pipe_setter instance attribute value :=
    pipe_loop setters instance attribute value in
  pipe_setter.

Definition frozen : setter :=
  fun _ _ _ => raise (FrozenAttributeError [Lit "Can't set attribute: frozen"]).

Definition validate : setter :=
  fun instance attrib new_value =>
    match validator attrib with
    | Some f =>
        _ <~ call_validator f instance attrib new_value;;
        ret new_value
    | None => ret new_value
    end.

Definition convert : setter :=
  fun instance attrib new_value =>
    match converter attrib with
    | Some f => call_converter f new_value
    | None => ret new_value
    end.

Lemma mbind_ret_l {A B} (a : A) (k : A -> M B) w : mbind (ret a) k w = k a w.
Proof. reflexivity. Qed.

Lemma mbind_ret_r {A} (m : M A) w : mbind m ret w = m w.
Proof. unfold mbind, ret. destruct (m w) as [[a | e] w']; reflexivity. Qed.

Lemma mbind_assoc {A B C} (m : M A) (f : A -> M B) (g : B -> M C) w :
  mbind (mbind m f) g w = mbind m (fun a => mbind (f a) g) w.
Proof. unfold mbind. destruct (m w) as [[a | e] w']; reflexivity. Qed.

Lemma pipe_app (ss ts : list setter) instance attribute :
  forall value w,
    pipe (ss ++ ts) instance attribute value w =
    mbind (pipe ss instance attribute value)
          (fun value' => pipe ts instance attribute value') w.
Proof.
  unfold pipe. induction ss as [|s ss IH]; intros value w; simpl.
  - reflexivity.
  - unfold mbind in *.
    destruct (s instance attribute value w) as [[value' | e] w']; [apply IH | reflexivity].
Qed.

(** C7. [pipe] runs its stages in the order they were given: the first
    stage gets the written value, each next stage gets what the one before
    it returned, a stage that raises ends the run with the later stages not
    called, and what the last stage returns is what [pipe] returns.  So
    [pipe(validate, convert)] calls the validator on the raw value first;
    when it raises, that exception comes out and the world is as the
    validator left it, the converter not having been called; when it
    returns, the converter is called on the raw value and its result is
    returned. *)
Theorem pipe_in_declaration_order :
  (forall instance attribute value w,
      pipe [] instance attribute value w = (Ok value, w)) /\
  (forall (s : setter) ss instance attribute value w,
      pipe (s :: ss) instance attribute value w =
      match s instance attribute value w with
      | (Ok value', w') => pipe ss instance attribute value' w'
      | (Raise e, w') => (Raise e, w')
      end) /\
  (forall ss (s : setter) instance attribute value w,
      pipe (ss ++ [s]) instance attribute value w =
      match pipe ss instance attribute value w with
      | (Ok value', w') => s instance attribute value' w'
      | (Raise e, w') => (Raise e, w')
      end) /\
  (forall instance attrib value w,
      pipe [validate; convert] instance attrib value w =
      match validator attrib with
      | Some f =>
          match call_validator f instance attrib value w with
          | (Ok _, w') =>
              match converter attrib with
              | Some g => call_converter g value w'
              | None => (Ok value, w')
              end
          | (Raise e, w') => (Raise e, w')
          end
      | None =>
          match converter attrib with
          | Some g => call_converter g value w
          | None => (Ok value, w)
          end
      end).
Proof.
  split; [|split; [|split]].
  - reflexivity.
  - intros s ss instance attribute value w. unfold pipe. simpl. unfold mbind.
    destruct (s instance attribute value w) as [[value' | e] w']; reflexivity.
  - intros ss s instance attribute value w. rewrite pipe_app.
    unfold mbind, pipe. simpl.
    destruct (pipe_loop ss instance attribute value w) as [[value' | e] w'];
      [|reflexivity].
    unfold mbind, ret. destruct (s instance attribute value' w') as [[r | e] w''];
      reflexivity.
  - intros instance attrib value w.
    unfold pipe, validate, convert. simpl. unfold mbind, ret.
    destruct (validator attrib) as [f|].
    + destruct (call_validator f instance attrib value w) as [[r | e] w'];
        [|reflexivity].
      destruct (converter attrib) as [g|]; [|reflexivity].
      destruct (call_converter g value w') as [[r' | e] w'']; reflexivity.
    + destruct (converter attrib) as [g|]; [|reflexivity].
      destruct (call_converter g value w) as [[r' | e] w'']; reflexivity.
Qed.

(** *** More of setters.py *)

(** Pipes nest: a pipe used as the first stage of another pipe runs the
    same stages, in the same order, as the one flat pipe. *)
Theorem pipe_of_pipe (ss ts : list setter) instance attribute value w :
  pipe (pipe ss :: ts) instance attribute value w =
  pipe (ss ++ ts) instance attribute value w.
Proof. rewrite pipe_app. reflexivity. Qed.

(** A pipe with [frozen] among its stages never returns a value: it raises
    what an earlier stage raises or else [FrozenAttributeError], and the
    stages after [frozen] are not called, so that the world is left as by
    the pipe cut after [frozen]. *)
Theorem pipe_with_frozen (ss ts : list setter) instance attribute value w :
  pipe (ss ++ frozen :: ts) instance attribute value w =
  pipe (ss ++ [frozen]) instance attribute value w /\
  exists e w', pipe (ss ++ frozen :: ts) instance attribute value w = (Raise e, w').
Proof.
  rewrite !pipe_app. unfold mbind.
  destruct (pipe ss instance attribute value w) as [[value' | e] w'].
  - split; [reflexivity|]. eexists. eexists. reflexivity.
  - split; [reflexivity|]. eexists. eexists. reflexivity.
Qed.

(** [validate] does not change the value: when it returns, it returns the
    value it was given, whatever the validator returned. *)
Theorem validate_returns_value instance attrib new_value w r w' :
  validate instance attrib new_value w = (Ok r, w') -> r = new_value.
Proof.
  unfold validate, mbind, ret. destruct (validator attrib) as [f|].
  - destruct (call_validator f instance attrib new_value w) as [[x | e] w''];
      intros H; [now injection H as <- _ | discriminate].
  - intros H. now injection H as <- _.
Qed.

(** In [pipe(convert, validate)] the converter runs first, on the raw
    value, and the validator is then called on the converted value; when
    the converter raises, the validator is not called. *)
Theorem pipe_convert_validate instance attrib value w :
  pipe [convert; validate] instance attrib value w =
  match converter attrib with
  | Some g =>
      match call_converter g value w with
      | (Ok converted, w') =>
          match validator attrib with
          | Some f =>
              match call_validator f instance attrib converted w' with
              | (Ok _, w'') => (Ok converted, w'')
              | (Raise e, w'') => (Raise e, w'')
              end
          | None => (Ok converted, w')
          end
      | (Raise e, w') => (Raise e, w')
      end
  | None =>
      match validator attrib with
      | Some f =>
          match call_validator f instance attrib value w with
          | (Ok _, w') => (Ok value, w')
          | (Raise e, w') => (Raise e, w')
          end
      | None => (Ok value, w)
      end
  end.
Proof.
  unfold pipe, validate, convert. simpl. unfold mbind, ret.
  destruct (converter attrib) as [g|].
  - destruct (call_converter g value w) as [[converted | e] w']; [|reflexivity].
    destruct (validator attrib) as [f|]; [|reflexivity].
    destruct (call_validator f instance attrib converted w') as [[x | e] w''];
      reflexivity.
  - destruct (validator attrib) as [f|]; [|reflexivity].
    destruct (call_validator f instance attrib value w) as [[x | e] w']; reflexivity.
Qed.

End WithWorld.

(** The scenario of the specification: a field whose validator wants a
    value other than [None] and whose converter is [to_bool], written
    through [pipe(validate, convert)].  The world is the list of the
    functions called so far, latest first. *)
Definition not_none : callable := 1%nat.
Definition to_bool_ : callable := 2%nat.

Definition flag : Attribute :=
  {| name := "flag"; type := None; init := true;
     validator := Some not_none; converter := Some to_bool_ |}.

Definition log_validator (f : callable) (instance : pyvalue) (attrib : Attribute)
  (value : pyvalue) : M (list callable) pyvalue :=
  fun w =>
    match value with
    | VNone => (Raise (UserError "ValidationError" value), f :: w)
    | _ => (Ok VNone, f :: w)
    end.

Definition log_converter (f : callable) (value : pyvalue) : M (list callable) pyvalue :=
  fun w => (Converters.to_bool value, f :: w).

Example pipe_yes :
  pipe _ [validate _ log_validator; convert _ log_converter]
    (VObj (T_class 0) []) flag (VStr "yes") [] =
  (Ok (VBool true), [to_bool_; not_none]).
Proof. reflexivity. Qed.

Example pipe_none :
  pipe _ [validate _ log_validator; convert _ log_converter]
    (VObj (T_class 0) []) flag VNone [] =
  (Raise (UserError "ValidationError" VNone), [not_none]).
Proof. reflexivity. Qed.

Lemma validate_returns_value_witness :
  validate _ log_validator (VObj (T_class 0) []) flag (VStr "yes") [] =
    (Ok (VStr "yes"), [not_none]) /\
  VStr "yes" = VStr "yes".
Proof.
  split; [reflexivity|].
  apply (validate_returns_value (list callable) log_validator
           (VObj (T_class 0) []) flag (VStr "yes") [] (VStr "yes") [not_none]).
  reflexivity.
Defined.

End Setters.

(** ** Builtin containers *)

(** [x == y] on the modelled objects.  [True == 1] and [False == 0] hold as
    in Python; a [set] and a [frozenset] are equal when they have the same
    elements, two [dict]s when they have the same items, whatever the
    order; two other objects when they are of one class and hold equal
    attributes, which is the [__eq__] that [attrs] generates. *)
Fixpoint py_eqb (x y : pyvalue) {struct x} : bool :=
  let fix all2 (xs ys : list pyvalue) {struct xs} : bool :=
    match xs, ys with
    | [], [] => true
    | x :: xs', y :: ys' => py_eqb x y && all2 xs' ys'
    | _, _ => false
    end in
  let fix subset (xs ys : list pyvalue) {struct xs} : bool :=
    match xs with
    | [] => true
    | x :: xs' => existsb (py_eqb x) ys && subset xs' ys
    end in
  let fix items_in (xs ys : list (pyvalue * pyvalue)) {struct xs} : bool :=
    match xs with
    | [] => true
    | (k, v) :: xs' =>
        existsb (fun '(k', v') => py_eqb k k' && py_eqb v v') ys && items_in xs' ys
    end in
  let fix attrs_eq (xs ys : list (string * pyvalue)) {struct xs} : bool :=
    match xs, ys with
    | [], [] => true
    | (m, x) :: xs', (n, y) :: ys' => String.eqb m n && py_eqb x y && attrs_eq xs' ys'
    | _, _ => false
    end in
  match x, y with
  | VNone, VNone => true
  | VBool a, VBool b => Bool.eqb a b
  | VBool a, VInt z | VInt z, VBool a => z =? (if a then 1 else 0)
  | VInt a, VInt b => a =? b
  | VStr a, VStr b => String.eqb a b
  | VTuple xs, VTuple ys | VList xs, VList ys => all2 xs ys
  | VSet xs, VSet ys | VSet xs, VFrozenset ys
  | VFrozenset xs, VSet ys | VFrozenset xs, VFrozenset ys =>
      (List.length xs =? List.length ys)%nat && subset xs ys
  | VDict xs, VDict ys => (List.length xs =? List.length ys)%nat && items_in xs ys
  | VObj c xs, VObj d ys => pytype_eqb c d && attrs_eq xs ys
  | _, _ => false
  end.

(** [d[k] = v] on the items of a [dict]. *)
Fixpoint dict_set (k v : pyvalue) (items : list (pyvalue * pyvalue)) : list (pyvalue * pyvalue) :=
  match items with
  | [] => [(k, v)]
  | (k', v') :: items' =>
      if py_eqb k k' then (k', v) :: items' else (k', v') :: dict_set k v items'
  end.

(** Adding an element to a [set]. *)
Definition set_add (x : pyvalue) (xs : list pyvalue) : list pyvalue :=
  if existsb (py_eqb x) xs then xs else (xs ++ [x])%list.

Section Builtins.

(** Whether the instances of a class can be hashed; a class that [attrs]
    gave an [__eq__] and no [__hash__] cannot. *)
Variable hashable_class : pytype -> bool.

(** Whether [hash(v)] returns rather than raises [TypeError]. *)
Fixpoint hashable (v : pyvalue) : bool :=
  match v with
  | VNone | VBool _ | VInt _ | VStr _ => true
  | VTuple xs => forallb hashable xs
  | VFrozenset _ => true
  | VList _ | VSet _ | VDict _ => false
  | VObj c _ => hashable_class c
  end.

(** [TypeError("unhashable type: ...")] *)
Definition unhashable (v : pyvalue) : exn :=
  TypeError [Lit "unhashable type: "; Repr v].

(** The builtin [dict] called with an iterable of pairs.  The iterable may
    be a generator: it is the list of what each step of it gives, a pair or
    an exception, and [dict] takes the steps one at a time, hashing each key
    as it inserts it. *)
Fixpoint dict_from (acc : list (pyvalue * pyvalue))
  (steps : list (result (pyvalue * pyvalue))) : result pyvalue :=
  match steps with
  | [] => Ok (VDict acc)
  | Raise e :: _ => Raise e
  | Ok (k, v) :: steps' =>
      if hashable k then dict_from (dict_set k v acc) steps'
      else Raise (unhashable k)
  end.

Definition dict_ (steps : list (result (pyvalue * pyvalue))) : result pyvalue :=
  dict_from [] steps.

(** The builtins [set] and [frozenset] called with a list.  The order in
    which a set yields its elements is not fixed by the language; the model
    keeps the order of insertion. *)
Fixpoint set_from (acc : list pyvalue) (xs : list pyvalue) : result (list pyvalue) :=
  match xs with
  | [] => Ok acc
  | x :: xs' =>
      if hashable x then set_from (set_add x acc) xs'
      else Raise (unhashable x)
  end.

(** [rv[k] = v] *)
Definition setitem (rv k v : pyvalue) : result pyvalue :=
  match rv with
  | VDict items =>
      if hashable k then Ok (VDict (dict_set k v items))
      else Raise (unhashable k)
  | _ => Raise (TypeError [Lit "object does not support item assignment"])
  end.

(** [all_results] turns the results of a list comprehension into the list,
    or the first exception raised. *)
Fixpoint all_results {A} (rs : list (result A)) : result (list A) :=
  match rs with
  | [] => Ok []
  | Ok a :: rs' => as_ <- all_results rs';; Ok (a :: as_)
  | Raise e :: _ => Raise e
  end.

End Builtins.

(** ** _funcs.py *)

Module Funcs.

Section WithClasses.

(** The classes of the program: what each class object holds under
    [__attrs_attrs__], when it holds anything there, and whether its
    instances can be hashed. *)
Variable attrs_attrs : pytype -> option (list Attribute).
Variable hashable_class : pytype -> bool.

(** [has(cls)].  It is only ever called on [x.__class__], which is a class,
    so its [TypeError] branch is never taken. *)
Definition has (cls : pytype) : bool :=
  match attrs_attrs cls with
  | Some _ => true
  | None => false
  end.

(** Modelled from the spec: [fields] is imported from [_make.py], which is
    not among the sources.  It returns the ordered fields of a record type
    and fails with the not-a-record-type error on a type that lacks field
    metadata. *)
Definition fields (cls : pytype) : result (list Attribute) :=
  match attrs_attrs cls with
  | Some attrs => Ok attrs
  | None => Raise (NotAnAttrsClassError cls)
  end.

(** [isinstance(v, (tuple, list, set, frozenset))] *)
Definition is_collection (v : pyvalue) : bool :=
  match v with
  | VTuple _ | VList _ | VSet _ | VFrozenset _ => true
  | _ => false
  end.

(** [isinstance(v, dict)] *)
Definition is_dict (v : pyvalue) : bool :=
  match v with
  | VDict _ => true
  | _ => false
  end.

(** [cf(items)] for [cf = type(val)] when [retain_collection_types is True]
    and [cf = list] otherwise; [val] is a tuple, list, set or frozenset. *)
Definition cf (retain_collection_types : bool) (val : pyvalue)
  (items : list pyvalue) : result pyvalue :=
  if retain_collection_types then
    match val with
    | VTuple _ => Ok (VTuple items)
    | VSet _ => xs <- set_from hashable_class [] items;; Ok (VSet xs)
    | VFrozenset _ => xs <- set_from hashable_class [] items;; Ok (VFrozenset xs)
    | _ => Ok (VList items)
    end
  else Ok (VList items).

Section Projection.

(** The arguments of [asdict]; every recursive call passes them on as they
    are ([recurse=True] is passed where [recurse] is known to be true). *)
Variable recurse : bool.
Variable filter : option (Attribute -> pyvalue -> bool).
Variable dict_factory : list (result (pyvalue * pyvalue)) -> result pyvalue.
Variable retain_collection_types : bool.
Variable value_serializer : option (pyvalue -> Attribute -> pyvalue -> result pyvalue).

(** [asdict] and [_asdict_anything] call each other with no guard against
    cycles; [depth] is the number of nested calls the interpreter's stack
    still has room for, and running out of it is [RecursionError]. *)
Fixpoint asdict (depth : nat) (inst : pyvalue) {struct depth} : result pyvalue :=
  match depth with
  | O => Raise RecursionError
  | S depth' =>
      attrs <- fields (type_of inst);;
      rv <- dict_factory [];;
      (fix loop (attrs : list Attribute) (rv : pyvalue) {struct attrs} : result pyvalue :=
         match attrs with
         | [] => Ok rv
         | a :: attrs' =>
             v <- getattr inst (name a);;
             if match filter with Some f => negb (f a v) | None => false end
             then loop attrs' rv
             else
               v <- match value_serializer with
                    | Some g => g inst a v
                    | None => Ok v
                    end;;
               v <- (if recurse then
                       if has (type_of v) then asdict depth' v
                       else if is_collection v then _asdict_anything depth' v
                       else Ok v
                     else Ok v);;
               rv <- setitem hashable_class rv (VStr (name a)) v;;
               loop attrs' rv
         end) attrs rv
  end

with _asdict_anything (depth : nat) (val : pyvalue) {struct depth} : result pyvalue :=
  match depth with
  | O => Raise RecursionError
  | S depth' =>
      match val with
      | VDict items =>
          dict_factory
            (map (fun '(k, v) =>
                    k' <- _asdict_anything depth' k;;
                    v' <- _asdict_anything depth' v;;
                    Ok (k', v'))
                 items)
      | VTuple xs | VList xs | VSet xs | VFrozenset xs =>
          items <- all_results (map (_asdict_anything depth') xs);;
          cf retain_collection_types val items
      | _ =>
          if has (type_of val) then asdict depth' val
          else Ok val
      end
  end.

(** [astuple].  The name [_astuple_anything] that it calls for a container
    is bound nowhere in the module, so reading it raises [NameError]. *)
Variable tuple_factory : list pyvalue -> result pyvalue.

Fixpoint astuple (depth : nat) (inst : pyvalue) {struct depth} : result pyvalue :=
  match depth with
  | O => Raise RecursionError
  | S depth' =>
      attrs <- fields (type_of inst);;
      rv <- (fix loop (attrs : list Attribute) (rv : list pyvalue) {struct attrs}
               : result (list pyvalue) :=
               match attrs with
               | [] => Ok rv
               | a :: attrs' =>
                   v <- getattr inst (name a);;
                   if match filter with Some f => negb (f a v) | None => false end
                   then loop attrs' rv
                   else
                     v <- (if recurse then
                             if has (type_of v) then astuple depth' v
                             else if is_collection v || is_dict v
                                  then Raise (NameError "_astuple_anything")
                                  else Ok v
                           else Ok v);;
                     loop attrs' (rv ++ [v])%list
               end) attrs [];;
      tuple_factory rv
  end.

End Projection.

(** [d.pop(k, default)] on a dictionary with [str] keys: the value under
    [k] and the dictionary without [k], or [default] and the dictionary as
    it is.  (The keys of a dictionary are distinct, so dropping every item
    under [k] drops the one there is.) *)
Definition pop (k : string) (default : pyvalue) (d : list (string * pyvalue))
  : pyvalue * list (string * pyvalue) :=
  match lookup k d with
  | Some v => (v, List.filter (fun kv => negb (String.eqb k (fst kv))) d)
  | None => (default, d)
  end.

(** Calling the class with keyword arguments runs the initializer that the class
    was given when it was made a record type, which is outside these
    sources. *)
Variable call_class : pytype -> list (string * pyvalue) -> result pyvalue.

(** The [for] loop of [evolve].  In [changes.pop(attr.name, getattr(inst,
    attr.name))] the argument [getattr(...)] is evaluated before [pop] is
    called, so an attribute the instance lacks raises even when a change
    for it is given. *)
Fixpoint evolve_loop (inst : pyvalue) (attrs : list Attribute)
  (new_values changes : list (string * pyvalue))
  : result (list (string * pyvalue) * list (string * pyvalue)) :=
  match attrs with
  | [] => Ok (new_values, changes)
  | attr :: attrs' =>
      if init attr then
        match getattr inst (name attr) with
        | Ok current =>
            let '(v, changes) := pop (name attr) current changes in
            evolve_loop inst attrs' (update (name attr) v new_values) changes
        | Raise (AttributeError _) =>
            Raise (TypeError [Lit "Attribute "; Str (name attr);
                              Lit " doesn't exist or is not initializable."])
        | Raise e => Raise e
        end
      else evolve_loop inst attrs' new_values changes
  end.

(** [evolve], on its positional and its keyword arguments.
    [NotAnAttrsClassError] is a name the
    module never imports (it imports [AttrsAttributeNotFoundError] only),
    so the [raise] that mentions it raises [NameError]. *)
Definition evolve (args : list pyvalue) (changes : list (string * pyvalue))
  : result pyvalue :=
  match args with
  | [] =>
      Raise (TypeError
               [Lit "evolve() missing 1 required positional argument: 'inst'"])
  | inst :: _ =>
      if negb (has (type_of inst)) then Raise (NameError "NotAnAttrsClassError")
      else
        attrs <- fields (type_of inst);;
        state <- evolve_loop inst attrs [] changes;;
        let '(new_values, changes) := state in
        match changes with
        | (k, _) :: _ =>
            Raise (TypeError [Lit "got an unexpected keyword argument: ";
                              Repr (VStr k)])
        | [] => call_class (type_of inst) new_values
        end
  end.

(** The names of the fields the initializer takes. *)
Definition init_names (attrs : list Attribute) : list string :=
  map name (List.filter init attrs).

(** A keyword that names none of them. *)
Definition unexpected (names : list string) (kv : string * pyvalue) : bool :=
  negb (existsb (fun n => String.eqb n (fst kv)) names).

Lemma unexpected_false names kv :
  unexpected names kv = false <-> In (fst kv) names.
Proof.
  unfold unexpected. rewrite negb_false_iff, existsb_exists. split.
  - intros [n [Hin Heq]]. apply String.eqb_eq in Heq. now subst.
  - intros Hin. exists (fst kv). split; [assumption | apply String.eqb_refl].
Qed.

Lemma pop_spec k default d :
  pop k default d =
  (match lookup k d with Some v => v | None => default end,
   List.filter (fun kv => negb (String.eqb k (fst kv))) d).
Proof.
  unfold pop. destruct (lookup k d) eqn:E; [reflexivity|].
  now rewrite filter_absent.
Qed.

Lemma filter_filter {A} (f g : A -> bool) l :
  List.filter f (List.filter g l) = List.filter (fun x => g x && f x) l.
Proof.
  induction l as [|x l IH]; simpl; [reflexivity|].
  destruct (g x); simpl; [destruct (f x)|]; now rewrite IH.
Qed.

Lemma evolve_loop_spec inst attrs :
  forall new_values changes,
    NoDup (init_names attrs) ->
    (forall n, In n (init_names attrs) -> exists v, getattr inst n = Ok v) ->
    exists new_values',
      evolve_loop inst attrs new_values changes =
        Ok (new_values', List.filter (unexpected (init_names attrs)) changes) /\
      (forall n, ~ In n (init_names attrs) ->
                 lookup n new_values' = lookup n new_values) /\
      (forall n, In n (init_names attrs) ->
                 exists v, lookup n new_values' = Some v /\
                           match lookup n changes with
                           | Some x => Ok x
                           | None => getattr inst n
                           end = Ok v) /\
      (forall n, In n (map fst new_values') <->
                 In n (map fst new_values) \/ In n (init_names attrs)).
Proof.
  induction attrs as [|a attrs IH]; intros new_values changes Hnd Hset.
  - exists new_values.
    assert (Hall : List.filter (unexpected (init_names [])) changes = changes).
    { induction changes as [|kv ch IHch]; simpl; [reflexivity | now rewrite IHch]. }
    rewrite Hall. simpl. repeat split; tauto.
  - unfold init_names in *. simpl in *. destruct (init a) eqn:Ei; simpl in *.
    + inversion Hnd as [|? ? Hnotin Hnd']; subst.
      destruct (Hset (name a) (or_introl eq_refl)) as [cur Hcur]. rewrite Hcur.
      rewrite pop_spec.
      destruct (IH (update (name a)
                      (match lookup (name a) changes with Some v => v | None => cur end)
                      new_values)
                   (List.filter (fun kv => negb (String.eqb (name a) (fst kv))) changes)
                   Hnd' (fun n Hn => Hset n (or_intror Hn)))
        as [nv' [Hrun [Hout [Hin Hkeys]]]].
      exists nv'. split; [|split; [|split]].
      * rewrite Hrun. rewrite filter_filter. do 2 f_equal.
        apply filter_ext. intros kv. unfold unexpected. simpl.
        now rewrite negb_orb.
      * intros n Hn. rewrite Hout by tauto.
        apply lookup_update_neq. intros ->. tauto.
      * intros n [<- | Hn].
        -- rewrite Hout by assumption. rewrite lookup_update_eq.
           eexists. split; [reflexivity|].
           destruct (lookup (name a) changes); [reflexivity | assumption].
        -- destruct (Hin n Hn) as [v [Hv Hm]]. exists v. split; [assumption|].
           rewrite lookup_filter_neq in Hm; [assumption|].
           intros ->. contradiction.
      * intros n. rewrite Hkeys, keys_update. intuition.
    + destruct (IH new_values changes Hnd Hset) as [nv' H]. exists nv'. exact H.
Qed.

Lemma init_names_NoDup attrs : NoDup (map name attrs) -> NoDup (init_names attrs).
Proof.
  unfold init_names. induction attrs as [|a attrs IH]; simpl; intros Hnd.
  - constructor.
  - inversion Hnd as [|? ? Hnotin Hnd']; subst.
    destruct (init a); simpl; [constructor|]; auto.
    intros Hin. apply Hnotin.
    apply in_map_iff in Hin as [b [Hb Hin]]. apply filter_In in Hin as [Hin _].
    apply in_map_iff. now exists b.
Qed.

Lemma init_names_In attrs a : In a attrs -> init a = true -> In (name a) (init_names attrs).
Proof.
  intros Hin Hi. unfold init_names. apply in_map. apply filter_In. now split.
Qed.

Lemma filter_none {A} (f : A -> bool) l :
  (forall x, In x l -> f x = false) -> List.filter f l = [].
Proof.
  induction l as [|x l IH]; simpl; intros H; [reflexivity|].
  rewrite (H x (or_introl eq_refl)). apply IH. intros y Hy. apply H. now right.
Qed.

Lemma expected_prefix names (pre : list (string * pyvalue)) :
  (forall k, In k (map fst pre) -> In k names) ->
  List.filter (unexpected names) pre = [].
Proof.
  intros H. apply filter_none. intros kv Hkv.
  apply unexpected_false. apply H. now apply in_map.
Qed.

(** [evolve] on a class whose initializer takes each field under the name
    of the field.  Let [inst] be an instance of a record class whose field
    names are distinct and whose initializer-eligible fields are all set on
    [inst], and let the initializer of the class store the keyword values
    it is given under their names.  When every name in [changes] is the
    name of an initializer-eligible field, [evolve] returns an instance of
    the class of [inst] in which each such field holds the value [changes]
    gives for it, or the value it has in [inst] when [changes] gives none.
    When some name in [changes] is not the name of an initializer-eligible
    field, [evolve] raises [TypeError] with the first such name, in the
    order the changes were written. *)
Theorem evolve_changes (inst : pyvalue) (changes : list (string * pyvalue))
  (attrs : list Attribute) :
  attrs_attrs (type_of inst) = Some attrs ->
  NoDup (map name attrs) ->
  (forall a, In a attrs -> init a = true ->
             exists v, getattr inst (name a) = Ok v) ->
  (forall kwargs,
      (forall n, In n (map fst kwargs) <-> In n (init_names attrs)) ->
      exists inst',
        call_class (type_of inst) kwargs = Ok inst' /\
        type_of inst' = type_of inst /\
        forall n v, lookup n kwargs = Some v -> getattr inst' n = Ok v) ->
  ((forall k, In k (map fst changes) -> In k (init_names attrs)) ->
   exists inst',
     evolve [inst] changes = Ok inst' /\
     type_of inst' = type_of inst /\
     forall a, In a attrs -> init a = true ->
       getattr inst' (name a) =
       match lookup (name a) changes with
       | Some x => Ok x
       | None => getattr inst (name a)
       end) /\
  (forall pre k x post,
      changes = (pre ++ (k, x) :: post)%list ->
      (forall k', In k' (map fst pre) -> In k' (init_names attrs)) ->
      ~ In k (init_names attrs) ->
      evolve [inst] changes =
      Raise (TypeError [Lit "got an unexpected keyword argument: "; Repr (VStr k)])).
Proof.
  intros Hcls Hnd Hset Hinit.
  assert (Hset' : forall n, In n (init_names attrs) -> exists v, getattr inst n = Ok v).
  { intros n Hn. unfold init_names in Hn.
    apply in_map_iff in Hn as [a [<- Ha]]. apply filter_In in Ha as [Ha Hi].
    now apply Hset. }
  destruct (evolve_loop_spec inst attrs [] changes (init_names_NoDup _ Hnd) Hset')
    as [nv [Hrun [_ [Hin Hkeys]]]].
  unfold evolve, has, fields. rewrite Hcls. simpl. rewrite Hrun. simpl.
  split.
  - intros Hall. rewrite (expected_prefix _ _ Hall).
    destruct (Hinit nv) as [inst' [Hcall [Hty Hget]]].
    { intros n. rewrite Hkeys. simpl. tauto. }
    exists inst'. split; [assumption|]. split; [assumption|].
    intros a Ha Hi.
    destruct (Hin (name a) (init_names_In _ _ Ha Hi)) as [v [Hv Hm]].
    rewrite Hm. now apply Hget.
  - intros pre k x post -> Hpre Hk.
    rewrite filter_app, (expected_prefix _ _ Hpre). simpl.
    destruct (unexpected (init_names attrs) (k, x)) eqn:E; [reflexivity|].
    apply unexpected_false in E. contradiction.
Qed.

(** *** More of asdict and astuple *)

(** Whether the filter lets the field through, and what the serializer
    makes of its value. *)
Definition accepts (filter : option (Attribute -> pyvalue -> bool))
  (a : Attribute) (v : pyvalue) : bool :=
  match filter with
  | Some f => f a v
  | None => true
  end.

Definition serialize
  (value_serializer : option (pyvalue -> Attribute -> pyvalue -> result pyvalue))
  (inst : pyvalue) (a : Attribute) (v : pyvalue) : result pyvalue :=
  match value_serializer with
  | Some g => g inst a v
  | None => Ok v
  end.

Lemma dict_set_fresh k v items :
  (forall kv, In kv items -> py_eqb k (fst kv) = false) ->
  dict_set k v items = (items ++ [(k, v)])%list.
Proof.
  induction items as [|[k' v'] items IH]; cbn [dict_set app]; intros H;
    [reflexivity|].
  pose proof (H (k', v') (or_introl eq_refl)) as E. cbn [fst] in E. rewrite E.
  rewrite IH; [reflexivity|]. intros kv Hkv. apply H. now right.
Qed.

(** What [asdict] does with the value [v] of an accepted field before it
    stores it, [depth] being the room left on the stack. *)
Definition recursed
  (recurse : bool) (filter : option (Attribute -> pyvalue -> bool))
  (dict_factory : list (result (pyvalue * pyvalue)) -> result pyvalue)
  (retain_collection_types : bool)
  (value_serializer : option (pyvalue -> Attribute -> pyvalue -> result pyvalue))
  (depth : nat) (v : pyvalue) : result pyvalue :=
  if recurse then
    if has (type_of v)
    then asdict recurse filter dict_factory retain_collection_types
           value_serializer depth v
    else if is_collection v
         then _asdict_anything recurse filter dict_factory retain_collection_types
                value_serializer depth v
         else Ok v
  else Ok v.

Lemma asdict_fields
  (recurse : bool) (filter : option (Attribute -> pyvalue -> bool))
  (retain_collection_types : bool)
  (value_serializer : option (pyvalue -> Attribute -> pyvalue -> result pyvalue))
  (depth : nat) (inst : pyvalue) (attrs : list Attribute)
  (raw out stored : Attribute -> pyvalue) :
  attrs_attrs (type_of inst) = Some attrs ->
  NoDup (map name attrs) ->
  (forall a, In a attrs -> getattr inst (name a) = Ok (raw a)) ->
  (forall a, In a attrs -> accepts filter a (raw a) = true ->
             serialize value_serializer inst a (raw a) = Ok (out a)) ->
  (forall a, In a attrs -> accepts filter a (raw a) = true ->
             recursed recurse filter (dict_ hashable_class) retain_collection_types
               value_serializer depth (out a) = Ok (stored a)) ->
  asdict recurse filter (dict_ hashable_class) retain_collection_types
    value_serializer (S depth) inst =
  Ok (VDict (map (fun a => (VStr (name a), stored a))
                 (List.filter (fun a => accepts filter a (raw a)) attrs))).
Proof.
  intros Hcls Hnd Hraw Hser Hstored.
  simpl. unfold fields. rewrite Hcls. simpl.
  match goal with
  | |- ?loop attrs (VDict []) = _ =>
      assert (Hloop : forall l acc,
                 (forall a, In a l -> In a attrs) ->
                 NoDup (map name l) ->
                 (forall a kv, In a l -> In kv acc ->
                               exists n, fst kv = VStr n /\ n <> name a) ->
                 loop l (VDict acc) =
                 Ok (VDict (acc ++ map (fun a => (VStr (name a), stored a))
                                       (List.filter (fun a => accepts filter a (raw a)) l))))
  end.
  { induction l as [|a l IH]; intros acc Hsub Hndl Hkeys.
    - simpl. now rewrite app_nil_r.
    - inversion Hndl as [|? ? Hnotin Hndl']; subst.
      assert (Ha : In a attrs) by (apply Hsub; now left).
      cbn [List.filter map]. rewrite (Hraw a Ha). cbn [bind].
      assert (IH' : forall acc',
                 (forall b kv, In b l -> In kv acc' ->
                               exists n, fst kv = VStr n /\ n <> name b) ->
                 _ l (VDict acc') = _)
        by (intros acc' H'; apply (IH acc'); [intros b Hb; apply Hsub; now right
                                             | assumption | assumption]).
      specialize (Hser a Ha). specialize (Hstored a Ha).
      unfold accepts, serialize, recursed in *.
      destruct (match filter with Some f => f a (raw a) | None => true end) eqn:Eacc.
      + replace (match filter with Some f => negb (f a (raw a)) | None => false end)
          with false by (destruct filter; [now rewrite Eacc | reflexivity]).
        rewrite (Hser eq_refl). cbn [bind].
        rewrite (Hstored eq_refl). cbn [bind setitem hashable].
        rewrite dict_set_fresh.
        * cbn [bind]. rewrite IH'.
          -- now rewrite <- app_assoc.
          -- intros b kv Hb Hkv. apply in_app_or in Hkv as [Hkv | [<- | []]].
             ++ apply (Hkeys b kv); [now right | assumption].
             ++ exists (name a). split; [reflexivity|].
                intros E. apply Hnotin. rewrite E. now apply in_map.
        * intros kv Hkv.
          destruct (Hkeys a kv (or_introl eq_refl) Hkv) as [n [Hn Hne]].
          rewrite Hn. simpl. apply String.eqb_neq. congruence.
      + replace (match filter with Some f => negb (f a (raw a)) | None => false end)
          with true by (destruct filter; [now rewrite Eacc | discriminate]).
        apply IH'. intros b kv Hb Hkv. apply (Hkeys b kv); [now right | assumption]. }
  rewrite Hloop; [reflexivity | auto | assumption | intros a kv _ []].
Qed.

(** [asdict] keeps the declared order and leaves out what the filter
    rejects.  Let [inst] be an instance of a record class with distinct
    field names, each field holding [raw a]; let the serializer, which is
    called on the accepted fields only and after the filter, make [out a]
    of [raw a]; and let no recursion be asked for, or no [out a] be a
    record instance, tuple, list, set or frozenset.  Then [asdict], with
    [dict] as factory, returns the dictionary that has, for each accepted
    field in declared order, the name of the field with [out a]. *)
Theorem asdict_one_level
  (recurse : bool) (filter : option (Attribute -> pyvalue -> bool))
  (retain_collection_types : bool)
  (value_serializer : option (pyvalue -> Attribute -> pyvalue -> result pyvalue))
  (depth : nat) (inst : pyvalue) (attrs : list Attribute)
  (raw out : Attribute -> pyvalue) :
  attrs_attrs (type_of inst) = Some attrs ->
  NoDup (map name attrs) ->
  (forall a, In a attrs -> getattr inst (name a) = Ok (raw a)) ->
  (forall a, In a attrs -> accepts filter a (raw a) = true ->
             serialize value_serializer inst a (raw a) = Ok (out a)) ->
  (recurse = true ->
   forall a, In a attrs -> accepts filter a (raw a) = true ->
             has (type_of (out a)) = false /\ is_collection (out a) = false) ->
  asdict recurse filter (dict_ hashable_class) retain_collection_types
    value_serializer (S depth) inst =
  Ok (VDict (map (fun a => (VStr (name a), out a))
                 (List.filter (fun a => accepts filter a (raw a)) attrs))).
Proof.
  intros Hcls Hnd Hraw Hser Hleaf.
  apply (asdict_fields recurse filter retain_collection_types value_serializer
           depth inst attrs raw out out); try assumption.
  intros a Ha Hacc. unfold recursed. destruct recurse; [|reflexivity].
  destruct (Hleaf eq_refl a Ha Hacc) as [-> ->]. reflexivity.
Qed.

(** [astuple] likewise: with no recursion asked for, or no accepted field
    holding a record instance, tuple, list, set, frozenset or dict, it
    hands [tuple_factory] the values of the accepted fields in declared
    order, and returns what the factory returns. *)
Theorem astuple_one_level
  (recurse : bool) (filter : option (Attribute -> pyvalue -> bool))
  (tuple_factory : list pyvalue -> result pyvalue)
  (depth : nat) (inst : pyvalue) (attrs : list Attribute)
  (raw : Attribute -> pyvalue) :
  attrs_attrs (type_of inst) = Some attrs ->
  (forall a, In a attrs -> getattr inst (name a) = Ok (raw a)) ->
  (recurse = true ->
   forall a, In a attrs -> accepts filter a (raw a) = true ->
             has (type_of (raw a)) = false /\
             is_collection (raw a) = false /\ is_dict (raw a) = false) ->
  astuple recurse filter tuple_factory (S depth) inst =
  tuple_factory (map raw (List.filter (fun a => accepts filter a (raw a)) attrs)).
Proof.
  intros Hcls Hraw Hleaf.
  simpl. unfold fields. rewrite Hcls. simpl.
  match goal with
  | |- bind (?loop attrs []) _ = _ =>
      assert (Hloop : forall l acc,
                 (forall a, In a l -> In a attrs) ->
                 loop l acc =
                 Ok (acc ++ map raw (List.filter (fun a => accepts filter a (raw a)) l))%list)
  end.
  { induction l as [|a l IH]; intros acc Hsub.
    - simpl. now rewrite app_nil_r.
    - assert (Ha : In a attrs) by (apply Hsub; now left).
      assert (Hsub' : forall b, In b l -> In b attrs) by (intros b Hb; apply Hsub; now right).
      cbn [List.filter map]. rewrite (Hraw a Ha). cbn [bind].
      unfold accepts in *.
      destruct (match filter with Some f => f a (raw a) | None => true end) eqn:Eacc.
      + replace (match filter with Some f => negb (f a (raw a)) | None => false end)
          with false by (destruct filter; [now rewrite Eacc | reflexivity]).
        assert (Hstore : (if recurse
                          then if has (type_of (raw a))
                               then astuple recurse filter tuple_factory depth (raw a)
                               else if is_collection (raw a) || is_dict (raw a)
                                    then Raise (NameError "_astuple_anything")
                                    else Ok (raw a)
                          else Ok (raw a)) = Ok (raw a)).
        { destruct recurse; [|reflexivity].
          destruct (Hleaf eq_refl a Ha Eacc) as [-> [-> ->]]. reflexivity. }
        rewrite Hstore. cbn [bind]. rewrite (IH _ Hsub').
        now rewrite <- app_assoc.
      + replace (match filter with Some f => negb (f a (raw a)) | None => false end)
          with true by (destruct filter; [now rewrite Eacc | discriminate]).
        apply (IH _ Hsub'). }
  rewrite Hloop by auto. reflexivity.
Qed.

Lemma all_results_length {A} (rs : list (result A)) xs :
  all_results rs = Ok xs -> List.length xs = List.length rs.
Proof.
  revert xs. induction rs as [|[a | e] rs IH]; simpl; intros xs H.
  - now injection H as <-.
  - destruct (all_results rs) as [ys | e]; simpl in H; [|discriminate].
    injection H as <-. simpl. f_equal. now apply IH.
  - discriminate.
Qed.

(** The elements of a tuple, list, set or frozenset. *)
Definition elements (v : pyvalue) : list pyvalue :=
  match v with
  | VTuple xs | VList xs | VSet xs | VFrozenset xs => xs
  | _ => []
  end.

(** What kind of container [_asdict_anything] returns for a tuple, list,
    set or frozenset, when it returns.  Without
    [retain_collection_types] it is a list with one entry for each element;
    with it, it is a container of the class of the original, and for a
    tuple or a list it has one entry for each element. *)
Theorem asdict_anything_kind
  (recurse : bool) (filter : option (Attribute -> pyvalue -> bool))
  (dict_factory : list (result (pyvalue * pyvalue)) -> result pyvalue)
  (retain_collection_types : bool)
  (value_serializer : option (pyvalue -> Attribute -> pyvalue -> result pyvalue))
  (depth : nat) (val r : pyvalue) :
  is_collection val = true ->
  _asdict_anything recurse filter dict_factory retain_collection_types
    value_serializer depth val = Ok r ->
  if retain_collection_types
  then type_of r = type_of val /\
       (type_of val = T_tuple \/ type_of val = T_list ->
        List.length (elements r) = List.length (elements val))
  else exists ys, r = VList ys /\ List.length ys = List.length (elements val).
Proof.
  intros Hcoll H. destruct depth as [|depth]; [discriminate|].
  destruct val as [ | | | | xs | xs | xs | xs | | ]; try discriminate Hcoll;
    cbn [_asdict_anything] in H;
    match type of H with
    | bind (all_results ?rs) _ = _ =>
        destruct (all_results rs) as [items | e] eqn:Eitems; [|discriminate]
    end;
    apply all_results_length in Eitems; rewrite length_map in Eitems;
    cbn [bind] in H; unfold cf in H;
    destruct retain_collection_types;
    try (injection H as <-; simpl; eauto; fail).
  - destruct (set_from hashable_class [] items) as [ys | e]; [|discriminate].
    injection H as <-. simpl. split; [reflexivity|].
    intros [E | E]; discriminate.
  - destruct (set_from hashable_class [] items) as [ys | e]; [|discriminate].
    injection H as <-. simpl. split; [reflexivity|].
    intros [E | E]; discriminate.
Qed.

(** Plain data: [None], booleans, integers and texts, tuples and lists of
    plain data, and dictionaries from texts (each key once, as in any
    dictionary) to plain data. *)
Definition is_str (v : pyvalue) : bool :=
  match v with
  | VStr _ => true
  | _ => false
  end.

Fixpoint distinct_keys (items : list (pyvalue * pyvalue)) : bool :=
  match items with
  | [] => true
  | (k, _) :: items' =>
      negb (existsb (fun kv => py_eqb k (fst kv)) items') && distinct_keys items'
  end.

Fixpoint plain (v : pyvalue) : bool :=
  match v with
  | VNone | VBool _ | VInt _ | VStr _ => true
  | VTuple xs | VList xs => forallb plain xs
  | VDict items =>
      forallb (fun kv => match kv with (k, x) => is_str k && plain x end) items
      && distinct_keys items
  | _ => false
  end.

(** The number of nested calls [_asdict_anything] makes on plain data. *)
Fixpoint calls (v : pyvalue) : nat :=
  match v with
  | VTuple xs | VList xs => S (list_max (map calls xs))
  | VDict items =>
      S (list_max (map (fun kv => match kv with (k, x) => Nat.max (calls k) (calls x) end)
                       items))
  | _ => 1
  end.

(** Plain data with every tuple in it turned into a list, unless tuples
    are to be retained. *)
Fixpoint normalized (retain : bool) (v : pyvalue) : pyvalue :=
  match v with
  | VTuple xs =>
      if retain then VTuple (map (normalized retain) xs)
      else VList (map (normalized retain) xs)
  | VList xs => VList (map (normalized retain) xs)
  | VDict items =>
      VDict (map (fun kv => match kv with (k, x) => (k, normalized retain x) end) items)
  | _ => v
  end.

Lemma all_results_Ok {A} (xs : list A) : all_results (map Ok xs) = Ok xs.
Proof. induction xs as [|x xs IH]; simpl; [reflexivity | now rewrite IH]. Qed.

Lemma list_max_bound (ns : list nat) n m :
  (list_max ns <= m)%nat -> In n ns -> (n <= m)%nat.
Proof.
  intros H Hin. apply list_max_le in H. rewrite Forall_forall in H. now apply H.
Qed.

Lemma dict_from_distinct (items acc : list (pyvalue * pyvalue)) :
  forallb (fun kv => is_str (fst kv)) items = true ->
  distinct_keys items = true ->
  (forall kv kv', In kv acc -> In kv' items -> py_eqb (fst kv') (fst kv) = false) ->
  dict_from hashable_class acc (map Ok items) = Ok (VDict (acc ++ items)).
Proof.
  revert acc. induction items as [|[k x] items IH]; intros acc Hstr Hdist Hacc.
  - simpl. now rewrite app_nil_r.
  - cbn [forallb fst] in Hstr. apply andb_true_iff in Hstr as [Hk Hstr].
    cbn [distinct_keys] in Hdist. apply andb_true_iff in Hdist as [Hfresh Hdist].
    apply negb_true_iff in Hfresh.
    destruct k as [ | | | k | | | | | | ]; try discriminate Hk.
    cbn [map dict_from hashable].
    rewrite dict_set_fresh.
    + rewrite IH; [now rewrite <- app_assoc | assumption | assumption |].
      intros kv kv' Hkv Hkv'. apply in_app_or in Hkv as [Hkv | [<- | []]].
      * apply Hacc; [assumption | now right].
      * cbn [fst].
        assert (Hs : is_str (fst kv') = true)
          by (rewrite forallb_forall in Hstr; now apply Hstr).
        destruct (fst kv') as [ | | | k' | | | | | | ] eqn:Ek'; try discriminate Hs.
        simpl. rewrite String.eqb_sym.
        destruct (String.eqb k k') eqn:E; [|reflexivity].
        assert (Hex : existsb (fun kv => py_eqb (VStr k) (fst kv)) items = true).
        { apply existsb_exists. exists kv'. split; [assumption|].
          rewrite Ek'. exact E. }
        congruence.
    + intros kv Hkv. apply (Hacc kv (VStr k, x)); [assumption | now left].
Qed.

Lemma key_among_map (f : pyvalue -> pyvalue) k items :
  existsb (fun kv => py_eqb k (fst kv))
          (map (fun kv => match kv with (k', x) => (k', f x) end) items) =
  existsb (fun kv => py_eqb k (fst kv)) items.
Proof.
  induction items as [|[k' x'] items IH]; [reflexivity|].
  cbn [map existsb fst]. now rewrite IH.
Qed.

Lemma distinct_keys_map (f : pyvalue -> pyvalue) items :
  distinct_keys (map (fun kv => match kv with (k, x) => (k, f x) end) items) =
  distinct_keys items.
Proof.
  induction items as [|[k x] items IH]; [reflexivity|].
  cbn [map distinct_keys]. now rewrite IH, key_among_map.
Qed.

Section PlainData.

Variable recurse : bool.
Variable filter : option (Attribute -> pyvalue -> bool).
Variable retain_collection_types : bool.
Variable value_serializer : option (pyvalue -> Attribute -> pyvalue -> result pyvalue).

(** No builtin class of scalars is a record class. *)
Hypothesis scalars_not_records :
  forall t, In t [T_NoneType; T_bool; T_int; T_str] -> attrs_attrs t = None.

Lemma asdict_anything_plain depth :
  forall v,
    plain v = true ->
    (calls v <= depth)%nat ->
    _asdict_anything recurse filter (dict_ hashable_class) retain_collection_types
      value_serializer depth v = Ok (normalized retain_collection_types v).
Proof.
  induction depth as [|depth IH]; intros v Hplain Hcalls.
  - destruct v; simpl in Hcalls; lia.
  - assert (Hscalar : forall t, In t [T_NoneType; T_bool; T_int; T_str] ->
                                has t = false)
      by (intros t Ht; unfold has; now rewrite (scalars_not_records t Ht)).
    assert (Hseq : forall xs,
               forallb plain xs = true ->
               (list_max (map calls xs) <= depth)%nat ->
               all_results
                 (map (_asdict_anything recurse filter (dict_ hashable_class)
                         retain_collection_types value_serializer depth) xs) =
               Ok (map (normalized retain_collection_types) xs)).
    { intros xs Hxs Hmax. rewrite <- all_results_Ok, map_map. f_equal.
      apply map_ext_in. intros x Hx. apply IH.
      - rewrite forallb_forall in Hxs. now apply Hxs.
      - apply (list_max_bound _ _ _ Hmax). now apply in_map. }
    destruct v as [ | b | z | s | xs | xs | xs | xs | items | c d ];
      cbn [plain] in Hplain; try discriminate Hplain; cbn [calls] in Hcalls;
      cbn [_asdict_anything type_of normalized].
    + rewrite Hscalar by (simpl; tauto). reflexivity.
    + rewrite Hscalar by (simpl; tauto). reflexivity.
    + rewrite Hscalar by (simpl; tauto). reflexivity.
    + rewrite Hscalar by (simpl; tauto). reflexivity.
    + rewrite Hseq by (assumption || lia). cbn [bind]. unfold cf.
      destruct retain_collection_types; reflexivity.
    + rewrite Hseq by (assumption || lia). cbn [bind]. unfold cf.
      destruct retain_collection_types; reflexivity.
    + apply andb_true_iff in Hplain as [Hitems Hdist].
      assert (Hsteps :
                map (fun '(k, v) =>
                       k' <- _asdict_anything recurse filter (dict_ hashable_class)
                               retain_collection_types value_serializer depth k;;
                       v' <- _asdict_anything recurse filter (dict_ hashable_class)
                               retain_collection_types value_serializer depth v;;
                       Ok (k', v')) items =
                map Ok (map (fun kv => match kv with
                                       | (k, x) => (k, normalized retain_collection_types x)
                                       end) items)).
      { rewrite map_map. apply map_ext_in. intros [k x] Hkx.
        rewrite forallb_forall in Hitems. specialize (Hitems _ Hkx).
        apply andb_true_iff in Hitems as [Hk Hx].
        assert (Hm : (Nat.max (calls k) (calls x) <= depth)%nat).
        { apply (list_max_bound
                   (map (fun kv => match kv with (k, x) => Nat.max (calls k) (calls x) end)
                        items)); [lia|].
          apply in_map_iff. exists (k, x). now split. }
        destruct k as [ | | | k | | | | | | ]; try discriminate Hk.
        rewrite (IH (VStr k)) by (reflexivity || lia).
        rewrite (IH x) by (assumption || lia). reflexivity. }
      rewrite Hsteps. unfold dict_. rewrite dict_from_distinct.
      * reflexivity.
      * rewrite forallb_forall. intros kv Hkv.
        apply in_map_iff in Hkv as [[k x] [<- Hkx]].
        rewrite forallb_forall in Hitems. specialize (Hitems _ Hkx).
        now apply andb_true_iff in Hitems as [Hk _].
      * now rewrite distinct_keys_map.
      * intros kv kv' [].
Qed.

Lemma normalized_retain n :
  forall v, (calls v <= n)%nat -> normalized true v = v.
Proof.
  induction n as [|n IH]; intros v Hcalls.
  - destruct v; simpl in Hcalls; lia.
  - assert (Hseq : forall xs, (list_max (map calls xs) <= n)%nat ->
                              map (normalized true) xs = xs).
    { intros xs Hmax. rewrite <- (map_id xs) at 2. apply map_ext_in.
      intros x Hx. apply IH. apply (list_max_bound _ _ _ Hmax). now apply in_map. }
    destruct v as [ | b | z | s | xs | xs | xs | xs | items | c d ];
      cbn [calls] in Hcalls; cbn [normalized]; try reflexivity.
    + rewrite Hseq by lia. reflexivity.
    + rewrite Hseq by lia. reflexivity.
    + f_equal. rewrite <- (map_id items) at 2. apply map_ext_in.
      intros [k x] Hkx. f_equal. apply IH.
      assert (Hm : (Nat.max (calls k) (calls x) <= n)%nat).
      { apply (list_max_bound
                 (map (fun kv => match kv with (k, x) => Nat.max (calls k) (calls x) end)
                      items)); [lia|].
        apply in_map_iff. exists (k, x). now split. }
      lia.
Qed.

(** On plain data [_asdict_anything] changes nothing but the tuples: with
    [retain_collection_types=True] it returns the data as it is, and
    without it it returns the data with every tuple, at whatever depth,
    turned into a list, lists and dictionaries keeping their entries in
    order.  (The stack must have room for the nested calls, and no builtin
    class of scalars be a record class.) *)
Theorem asdict_anything_plain_data (depth : nat) (v : pyvalue) :
  plain v = true ->
  (calls v <= depth)%nat ->
  _asdict_anything recurse filter (dict_ hashable_class) retain_collection_types
    value_serializer depth v =
  Ok (if retain_collection_types then v else normalized false v).
Proof.
  intros Hplain Hcalls. rewrite asdict_anything_plain by assumption.
  destruct retain_collection_types; [|reflexivity].
  now rewrite (normalized_retain depth).
Qed.

End PlainData.

(** *** More of evolve *)

Lemma update_fresh {A} k (a : A) d :
  ~ In k (map fst d) -> update k a d = (d ++ [(k, a)])%list.
Proof.
  induction d as [|[k' a'] d IH]; simpl; intros H; [reflexivity|].
  destruct (String.eqb k k') eqn:E.
  - apply String.eqb_eq in E. subst. tauto.
  - rewrite IH by tauto. reflexivity.
Qed.

(** The value [evolve] hands to the initializer for the field [n]. *)
Definition merged (cur : string -> pyvalue) (changes : list (string * pyvalue))
  (n : string) : string * pyvalue :=
  (n, match lookup n changes with Some x => x | None => cur n end).

Lemma evolve_loop_exact inst cur attrs :
  forall new_values changes,
    NoDup (init_names attrs) ->
    (forall n, In n (init_names attrs) -> ~ In n (map fst new_values)) ->
    (forall n, In n (init_names attrs) -> getattr inst n = Ok (cur n)) ->
    evolve_loop inst attrs new_values changes =
    Ok ((new_values ++ map (merged cur changes) (init_names attrs))%list,
        List.filter (unexpected (init_names attrs)) changes).
Proof.
  induction attrs as [|a attrs IH]; intros new_values changes Hnd Hfresh Hcur.
  - simpl. rewrite app_nil_r. do 2 f_equal.
    induction changes as [|kv ch IHch]; simpl; [reflexivity | now rewrite <- IHch].
  - unfold init_names in *. simpl in *. destruct (init a) eqn:Ei; simpl in *.
    + inversion Hnd as [|? ? Hnotin Hnd']; subst.
      rewrite (Hcur (name a) (or_introl eq_refl)), pop_spec.
      rewrite IH; try assumption.
      * rewrite update_fresh by (apply Hfresh; now left).
        rewrite <- app_assoc. simpl. rewrite filter_filter. f_equal. f_equal.
        -- f_equal. f_equal.
           apply map_ext_in. intros n Hn. unfold merged.
           rewrite lookup_filter_neq; [reflexivity|].
           intros ->. contradiction.
        -- apply filter_ext. intros kv. unfold unexpected. simpl.
           now rewrite negb_orb.
      * intros n Hn. rewrite keys_update. intros [-> | Hin]; [contradiction|].
        apply (Hfresh n); [now right | assumption].
      * intros n Hn. apply Hcur. now right.
    + now apply IH.
Qed.

(** [evolve] calls the initializer of the class of [inst] with one keyword
    for each initializer-eligible field and no other, in the order the
    fields are declared: the changed value where [changes] has one, the
    current value of the field otherwise.  What the initializer returns or
    raises is what [evolve] returns or raises.  (It is so for an instance
    of a record class with distinct field names whose initializer-eligible
    fields are set, and for changes that all name such fields.) *)
Theorem evolve_calls_initializer (inst : pyvalue) (changes : list (string * pyvalue))
  (attrs : list Attribute) (cur : string -> pyvalue) :
  attrs_attrs (type_of inst) = Some attrs ->
  NoDup (map name attrs) ->
  (forall n, In n (init_names attrs) -> getattr inst n = Ok (cur n)) ->
  (forall k, In k (map fst changes) -> In k (init_names attrs)) ->
  evolve [inst] changes =
  call_class (type_of inst) (map (merged cur changes) (init_names attrs)).
Proof.
  intros Hcls Hnd Hcur Hall.
  unfold evolve, has, fields. rewrite Hcls. simpl.
  rewrite (evolve_loop_exact inst cur attrs [] changes
             (init_names_NoDup _ Hnd) (fun n _ H => H) Hcur).
  simpl. now rewrite (expected_prefix _ _ Hall).
Qed.

Lemma evolve_loop_app inst pre rest :
  forall new_values changes,
    evolve_loop inst (pre ++ rest) new_values changes =
    (state <- evolve_loop inst pre new_values changes;;
     evolve_loop inst rest (fst state) (snd state)).
Proof.
  induction pre as [|a pre IH]; intros new_values changes; simpl; [reflexivity|].
  destruct (init a); [|apply IH].
  destruct (getattr inst (name a)) as [current | e].
  - destruct (pop (name a) current changes) as [v changes']. apply IH.
  - destruct e; reflexivity.
Qed.

Lemma evolve_loop_runs inst attrs :
  forall new_values changes,
    (forall a, In a attrs -> init a = true -> exists v, getattr inst (name a) = Ok v) ->
    exists state, evolve_loop inst attrs new_values changes = Ok state.
Proof.
  induction attrs as [|a attrs IH]; intros new_values changes Hset; simpl.
  - eexists. reflexivity.
  - destruct (init a) eqn:Ei.
    + destruct (Hset a (or_introl eq_refl) Ei) as [v Hv]. rewrite Hv.
      destruct (pop (name a) v changes) as [x changes'].
      apply IH. intros b Hb. apply Hset. now right.
    + apply IH. intros b Hb. apply Hset. now right.
Qed.

(** When the instance lacks an initializer-eligible field, [evolve] raises
    [TypeError] naming the first such field, and it does so even when
    [changes] gives a value for that very field, and whatever else
    [changes] holds. *)
Theorem evolve_missing_attribute (inst : pyvalue) (changes : list (string * pyvalue))
  (pre post : list Attribute) (a : Attribute) :
  attrs_attrs (type_of inst) = Some (pre ++ a :: post)%list ->
  (forall b, In b pre -> init b = true -> exists v, getattr inst (name b) = Ok v) ->
  init a = true ->
  getattr inst (name a) = Raise (AttributeError (name a)) ->
  evolve [inst] changes =
  Raise (TypeError [Lit "Attribute "; Str (name a);
                    Lit " doesn't exist or is not initializable."]).
Proof.
  intros Hcls Hpre Hi Hmiss.
  unfold evolve, has, fields. rewrite Hcls. simpl.
  rewrite evolve_loop_app.
  destruct (evolve_loop_runs inst pre [] changes Hpre) as [state Hstate].
  rewrite Hstate. simpl. now rewrite Hi, Hmiss.
Qed.

(** *** assoc *)

(** How [assoc] ends: it returns the copy, it raises
    [AttrsAttributeNotFoundError] (imported from [exceptions.py]), or
    another exception comes out of a call it makes. *)
Inductive assoc_outcome :=
| Copy (new_inst : pyvalue)
| AttrsAttributeNotFoundError (msg : message)
| Raised (e : exn).

(** The [for] loop of [assoc] over [changes.items()]. *)
Fixpoint assoc_loop (attrs : list Attribute) (new_inst : pyvalue)
  (changes : list (string * pyvalue)) : assoc_outcome :=
  match changes with
  | [] => Copy new_inst
  | (attr_name, new_value) :: changes' =>
      if negb (existsb (fun attr => String.eqb (name attr) attr_name) attrs)
      then AttrsAttributeNotFoundError
             [Lit "Attribute "; Str attr_name; Lit " not found"]
      else
        match Cmp.setattr new_inst attr_name new_value with
        | Ok new_inst => assoc_loop attrs new_inst changes'
        | Raise e => Raised e
        end
  end.

(** [assoc(inst, **changes)]: the warnings it issues, and how it ends.
    [copy.copy(inst)] is a new object with the attributes of [inst]. *)
Definition assoc (inst : pyvalue) (changes : list (string * pyvalue))
  : list string * assoc_outcome :=
  (["assoc() is deprecated, use evolve() instead."],
   let new_inst := inst in
   match fields (type_of inst) with
   | Ok attrs => assoc_loop attrs new_inst changes
   | Raise e => Raised e
   end).

(** The name of some field, initializer-eligible or not. *)
Definition field_name (attrs : list Attribute) (k : string) : Prop :=
  exists a, In a attrs /\ name a = k.

Lemma field_name_existsb attrs k :
  existsb (fun attr => String.eqb (name attr) k) attrs = true <-> field_name attrs k.
Proof.
  rewrite existsb_exists. unfold field_name. split.
  - intros [a [Ha He]]. apply String.eqb_eq in He. now exists a.
  - intros [a [Ha He]]. exists a. split; [assumption|]. now apply String.eqb_eq.
Qed.

Lemma assoc_loop_known attrs c changes :
  forall d,
    NoDup (map fst changes) ->
    (forall k, In k (map fst changes) -> field_name attrs k) ->
    exists d',
      assoc_loop attrs (VObj c d) changes = Copy (VObj c d') /\
      forall n, lookup n d' =
                match lookup n changes with
                | Some x => Some x
                | None => lookup n d
                end.
Proof.
  induction changes as [|[k x] changes IH]; intros d Hnd Hknown.
  - exists d. split; reflexivity.
  - inversion Hnd as [|? ? Hnotin Hnd']; subst.
    cbn [assoc_loop]. 
    assert (Hk : existsb (fun attr => String.eqb (name attr) k) attrs = true)
      by (apply field_name_existsb, Hknown; now left).
    rewrite Hk. cbn [negb Cmp.setattr].
    destruct (IH (update k x d) Hnd' (fun k' Hk' => Hknown k' (or_intror Hk')))
      as [d' [Hrun Hlook]].
    exists d'. split; [exact Hrun|].
    intros n. rewrite Hlook. cbn [lookup].
    destruct (String.eqb n k) eqn:E.
    + apply String.eqb_eq in E. subst n.
      apply lookup_None in Hnotin. rewrite Hnotin. apply lookup_update_eq.
    + apply String.eqb_neq in E.
      destruct (lookup n changes); [reflexivity|]. now apply lookup_update_neq.
Qed.

Lemma assoc_loop_unknown attrs c pre k x post :
  forall d,
    (forall k', In k' (map fst pre) -> field_name attrs k') ->
    ~ field_name attrs k ->
    assoc_loop attrs (VObj c d) (pre ++ (k, x) :: post) =
    AttrsAttributeNotFoundError [Lit "Attribute "; Str k; Lit " not found"].
Proof.
  induction pre as [|[k' x'] pre IH]; intros d Hpre Hk.
  - cbn [app assoc_loop].
    destruct (existsb (fun attr => String.eqb (name attr) k) attrs) eqn:E;
      [|reflexivity].
    apply field_name_existsb in E. contradiction.
  - cbn [app assoc_loop].
    assert (Hk' : existsb (fun attr => String.eqb (name attr) k') attrs = true)
      by (apply field_name_existsb, Hpre; now left).
    rewrite Hk'. cbn [negb Cmp.setattr].
    apply IH; [|assumption]. intros k'' H. apply Hpre. now right.
Qed.

(** [assoc] on an instance of a record class, with each name in [changes]
    once.  It always issues its deprecation warning.  When every name in
    [changes] is the name of a field, [assoc] returns an object of the
    class of [inst] in which the changed attributes hold the new values
    and every other attribute holds what it holds in [inst]; the field
    need not be one the initializer takes, and the initializer is not
    called.  When some name is not the name of a field, it raises
    [AttrsAttributeNotFoundError] with the first such name.  (Assigning to
    an attribute of the copy is the plain assignment: the class is not
    frozen and runs no hook of its own on assignment.) *)
Theorem assoc_changes (c : pytype) (d : list (string * pyvalue))
  (changes : list (string * pyvalue)) (attrs : list Attribute) :
  attrs_attrs c = Some attrs ->
  NoDup (map fst changes) ->
  fst (assoc (VObj c d) changes) = ["assoc() is deprecated, use evolve() instead."] /\
  ((forall k, In k (map fst changes) -> field_name attrs k) ->
   exists d',
     snd (assoc (VObj c d) changes) = Copy (VObj c d') /\
     forall n, lookup n d' =
               match lookup n changes with
               | Some x => Some x
               | None => lookup n d
               end) /\
  (forall pre k x post,
      changes = (pre ++ (k, x) :: post)%list ->
      (forall k', In k' (map fst pre) -> field_name attrs k') ->
      ~ field_name attrs k ->
      snd (assoc (VObj c d) changes) =
      AttrsAttributeNotFoundError [Lit "Attribute "; Str k; Lit " not found"]).
Proof.
  intros Hcls Hnd. split; [reflexivity|].
  unfold assoc, fields. cbn [snd type_of]. rewrite Hcls. split.
  - intros Hknown. now apply assoc_loop_known.
  - intros pre k x post -> Hpre Hk. now apply assoc_loop_unknown.
Qed.

End WithClasses.

(** *** A small program

    [Point(x, y)] with a third field [cache] that the initializer does not
    take, [Inner(x)], [Outer(d)] and [Holder(xs)]; no other class is a
    record class. *)
Definition Point : pytype := T_class 1.
Definition Inner : pytype := T_class 2.
Definition Outer : pytype := T_class 3.
Definition Holder : pytype := T_class 4.

Definition attrib (n : string) (i : bool) : Attribute :=
  {| name := n; type := None; init := i; validator := None; converter := None |}.

Definition Point_attrs : list Attribute :=
  [attrib "x" true; attrib "y" true; attrib "cache" false].

Definition classes (c : pytype) : option (list Attribute) :=
  if pytype_eqb c Point then Some Point_attrs
  else if pytype_eqb c Inner then Some [attrib "x" true]
  else if pytype_eqb c Outer then Some [attrib "d" true]
  else if pytype_eqb c Holder then Some [attrib "xs" true]
  else None.

(** None of these classes defines [__hash__]. *)
Definition no_hash (c : pytype) : bool := false.

(** An initializer that stores each keyword value under its name. *)
Definition plain_init (c : pytype) (kwargs : list (string * pyvalue)) : result pyvalue :=
  Ok (VObj c kwargs).

(** The builtin [tuple] as [tuple_factory]. *)
Definition tuple_ (rv : list pyvalue) : result pyvalue := Ok (VTuple rv).

Definition point : pyvalue :=
  VObj Point [("x", VInt 1); ("y", VInt 2); ("cache", VInt 0)].

Definition inner : pyvalue := VObj Inner [("x", VInt 1)].

(** [Outer(d={"k": Inner(x=1)})] *)
Definition outer : pyvalue := VObj Outer [("d", VDict [(VStr "k", inner)])].

(** [Holder(xs=[1])] and [Holder(xs=[{(1, 2): 3}])] *)
Definition holder : pyvalue := VObj Holder [("xs", VList [VInt 1])].
Definition holder_of_dict : pyvalue :=
  VObj Holder [("xs", VList [VDict [(VTuple [VInt 1; VInt 2], VInt 3)]])].

(** [asdict(inst)] and [astuple(inst)] with the default arguments. *)
Definition asdict_default : nat -> pyvalue -> result pyvalue :=
  asdict classes no_hash true None (dict_ no_hash) false None.
Definition astuple_default : nat -> pyvalue -> result pyvalue :=
  astuple classes true None tuple_.

Example asdict_point :
  asdict_default 3 point =
  Ok (VDict [(VStr "x", VInt 1); (VStr "y", VInt 2); (VStr "cache", VInt 0)]).
Proof. reflexivity. Qed.

Example asdict_point_exclude_y :
  asdict classes no_hash true
    (Some (Filters.exclude Filters.Attribute_eqb [Filters.SelName "y"]))
    (dict_ no_hash) false None 3 point =
  Ok (VDict [(VStr "x", VInt 1); (VStr "cache", VInt 0)]).
Proof. reflexivity. Qed.

Example asdict_nested_list :
  asdict_default 4 (VObj Holder [("xs", VTuple [inner; VInt 2])]) =
  Ok (VDict [(VStr "xs", VList [VDict [(VStr "x", VInt 1)]; VInt 2])]).
Proof. reflexivity. Qed.

Example evolve_point_y :
  evolve classes plain_init [point] [("y", VInt 5)] =
  Ok (VObj Point [("x", VInt 1); ("y", VInt 5)]).
Proof. reflexivity. Qed.

Example evolve_point_cache :
  evolve classes plain_init [point] [("y", VInt 5); ("cache", VInt 7); ("z", VNone)] =
  Raise (TypeError [Lit "got an unexpected keyword argument: "; Repr (VStr "cache")]).
Proof. reflexivity. Qed.

(** C1. [asdict] leaves a field value that is a [dict] as it is: on
    [Outer(d={"k": Inner(x=1)})] it returns [{"d": {"k": Inner(x=1)}}],
    the inner record not projected, although [_asdict_anything] projects
    that same [dict] to [{"k": {"x": 1}}]; its test for a container names
    [tuple], [list], [set] and [frozenset] only.  [astuple] raises
    [NameError] on a field value that is a container, here on
    [Holder(xs=[1])], since [_astuple_anything] is defined nowhere.  Each
    holds whatever room the stack has beyond the few calls needed. *)
Theorem asdict_dict_field_not_projected :
  (forall depth,
      asdict_default (1 + depth) outer =
      Ok (VDict [(VStr "d", VDict [(VStr "k", inner)])])) /\
  (forall depth,
      _asdict_anything classes no_hash true None (dict_ no_hash) false None
        (3 + depth) (VDict [(VStr "k", inner)]) =
      Ok (VDict [(VStr "k", VDict [(VStr "x", VInt 1)])])) /\
  (forall depth,
      astuple_default (1 + depth) holder = Raise (NameError "_astuple_anything")).
Proof. repeat split. Qed.

(** C5. With the default arguments [asdict] fails on
    [Holder(xs=[{(1, 2): 3}])]: the key [(1, 2)] is projected to the list
    [[1, 2]], and building the new [dict] raises [TypeError], a list being
    unhashable, whatever room the stack has beyond the five nested calls
    needed.  (With [retain_collection_types=True] the key stays a tuple and
    the projection returns.) *)
Theorem asdict_collection_key_raises :
  (forall depth,
      asdict_default (5 + depth) holder_of_dict =
      Raise (unhashable (VList [VInt 1; VInt 2]))) /\
  (forall depth,
      asdict classes no_hash true None (dict_ no_hash) true None
        (5 + depth) holder_of_dict =
      Ok (VDict [(VStr "xs", VList [VDict [(VTuple [VInt 1; VInt 2], VInt 3)]])])).
Proof. split; intros depth; reflexivity. Qed.

(** C9. [evolve] on an object whose class is not a record class, here the
    integer [5], raises [NameError] and not the not-a-record-type error:
    the name [NotAnAttrsClassError] in its [raise] statement is bound
    nowhere in the module.  It is so for every such object. *)
Theorem evolve_not_a_record_raises_NameError :
  evolve classes plain_init [VInt 5] [] = Raise (NameError "NotAnAttrsClassError") /\
  (forall registry init_ inst changes,
      has registry (type_of inst) = false ->
      evolve registry init_ (inst :: nil) changes =
      Raise (NameError "NotAnAttrsClassError")).
Proof.
  split; [reflexivity|].
  intros registry init_ inst changes H. unfold evolve. now rewrite H.
Qed.

(** *** A class with a private field

    [Priv] has the one field [_x], which its initializer takes under the
    alias [x], as in [Priv(x=1)]. *)
Definition Priv : pytype := T_class 5.

Definition priv_classes (c : pytype) : option (list Attribute) :=
  if pytype_eqb c Priv then Some [attrib "_x" true] else classes c.

(** Modelled from the spec: the initializer of a record type is generated
    by the Field Registry, which is outside these sources, from the fields
    and their aliases.  [params] gives, for each initializer-eligible field
    in declared order, the keyword under which the initializer takes it
    (the alias of the field where it has one) and the name of the field.
    A keyword that is no parameter is a [TypeError], as is a parameter left
    out (the model has no defaults); otherwise each value is stored under
    the name of its field. *)
Definition alias_init (params : list (string * string)) (c : pytype)
  (kwargs : list (string * pyvalue)) : result pyvalue :=
  match List.find (fun kv => negb (existsb (String.eqb (fst kv)) (map fst params)))
                  kwargs with
  | Some (k, _) =>
      Raise (TypeError [Lit "__init__() got an unexpected keyword argument ";
                        Repr (VStr k)])
  | None =>
      d <- all_results
             (map (fun pf =>
                     match lookup (fst pf) kwargs with
                     | Some v => Ok (snd pf, v)
                     | None =>
                         Raise (TypeError
                                  [Lit "__init__() missing 1 required argument: ";
                                   Repr (VStr (fst pf))])
                     end) params);;
      Ok (VObj c d)
  end.

Definition Priv_init : pytype -> list (string * pyvalue) -> result pyvalue :=
  alias_init [("x", "_x")].

(** [Priv(x=1)] *)
Definition priv : pyvalue := VObj Priv [("_x", VInt 1)].

Example Priv_init_x : Priv_init Priv [("x", VInt 1)] = Ok priv.
Proof. reflexivity. Qed.

(** C3. [evolve] hands the initializer each field under the name of the
    field and never under its alias, and it takes the names in [changes]
    for names of fields.  On [Priv(x=1)], whose field [_x] the initializer
    takes as [x], [evolve] with no change at all does not return a copy:
    the initializer is called with [_x=1] and raises [TypeError]; so does
    [evolve] with the change [_x=5]; and the change [x=5], which names the
    parameter of the initializer, is turned down by [evolve] itself as an
    unexpected keyword. *)
Theorem evolve_aliased_field_raises :
  evolve priv_classes Priv_init [priv] [] =
    Raise (TypeError [Lit "__init__() got an unexpected keyword argument ";
                      Repr (VStr "_x")]) /\
  evolve priv_classes Priv_init [priv] [("_x", VInt 5)] =
    Raise (TypeError [Lit "__init__() got an unexpected keyword argument ";
                      Repr (VStr "_x")]) /\
  evolve priv_classes Priv_init [priv] [("x", VInt 5)] =
    Raise (TypeError [Lit "got an unexpected keyword argument: "; Repr (VStr "x")]) /\
  Priv_init Priv [("x", VInt 5)] = Ok (VObj Priv [("_x", VInt 5)]).
Proof. repeat split. Qed.

(** *** The further properties on the small program *)

(** What [point] holds in a field. *)
Definition point_value (a : Attribute) : pyvalue :=
  match lookup (name a) [("x", VInt 1); ("y", VInt 2); ("cache", VInt 0)] with
  | Some v => v
  | None => VNone
  end.

(** A filter that drops the field [y]. *)
Definition not_y (a : Attribute) (v : pyvalue) : bool :=
  negb (String.eqb (name a) "y").

Lemma Point_attrs_NoDup : NoDup (map name Point_attrs).
Proof. simpl. repeat constructor; simpl; intuition discriminate. Qed.

Lemma point_holds a : In a Point_attrs -> getattr point (name a) = Ok (point_value a).
Proof. intros [<- | [<- | [<- | []]]]; reflexivity. Qed.

Lemma point_init_set a :
  In a Point_attrs -> init a = true -> exists v, getattr point (name a) = Ok v.
Proof. intros Ha _. exists (point_value a). now apply point_holds. Qed.

Lemma plain_init_stores c kwargs :
  exists inst',
    plain_init c kwargs = Ok inst' /\
    type_of inst' = c /\
    forall n v, lookup n kwargs = Some v -> getattr inst' n = Ok v.
Proof.
  exists (VObj c kwargs). split; [reflexivity|]. split; [reflexivity|].
  intros n v Hn. simpl. now rewrite Hn.
Qed.

Lemma evolve_changes_witness :
  (exists inst',
      evolve classes plain_init [point] [("y", VInt 5)] = Ok inst' /\
      type_of inst' = type_of point /\
      forall a, In a Point_attrs -> init a = true ->
        getattr inst' (name a) =
        match lookup (name a) [("y", VInt 5)] with
        | Some x => Ok x
        | None => getattr point (name a)
        end) /\
  evolve classes plain_init [point]
    [("y", VInt 5); ("cache", VInt 7); ("z", VNone)] =
  Raise (TypeError [Lit "got an unexpected keyword argument: "; Repr (VStr "cache")]).
Proof.
  split.
  - apply (proj1 (evolve_changes classes plain_init point [("y", VInt 5)] Point_attrs
                    eq_refl Point_attrs_NoDup point_init_set
                    (fun kwargs _ => plain_init_stores (type_of point) kwargs))).
    simpl. intros k [<- | []]. tauto.
  - apply (proj2 (evolve_changes classes plain_init point
                    [("y", VInt 5); ("cache", VInt 7); ("z", VNone)] Point_attrs
                    eq_refl Point_attrs_NoDup point_init_set
                    (fun kwargs _ => plain_init_stores (type_of point) kwargs))
                 [("y", VInt 5)] "cache" (VInt 7) [("z", VNone)]).
    + reflexivity.
    + simpl. intros k [<- | []]. tauto.
    + simpl. intros [H | [H | []]]; discriminate.
Defined.

Lemma asdict_one_level_witness :
  asdict classes no_hash true (Some not_y) (dict_ no_hash) false None 1 point =
  Ok (VDict [(VStr "x", VInt 1); (VStr "cache", VInt 0)]).
Proof.
  apply (asdict_one_level classes no_hash true (Some not_y) false None 0 point
           Point_attrs point_value point_value).
  - reflexivity.
  - exact Point_attrs_NoDup.
  - exact point_holds.
  - intros a _ _. reflexivity.
  - intros _ a [<- | [<- | [<- | []]]] _; split; reflexivity.
Defined.

Lemma astuple_one_level_witness :
  astuple classes true (Some not_y) tuple_ 1 point = Ok (VTuple [VInt 1; VInt 0]).
Proof.
  apply (astuple_one_level classes true (Some not_y) tuple_ 0 point
           Point_attrs point_value).
  - reflexivity.
  - exact point_holds.
  - intros _ a [<- | [<- | [<- | []]]] _; repeat split; reflexivity.
Defined.

Lemma asdict_anything_kind_witness :
  exists ys, VList [VInt 1; VInt 2] = VList ys /\
             List.length ys = List.length (elements (VTuple [VInt 1; VInt 2])).
Proof.
  apply (asdict_anything_kind classes no_hash true None (dict_ no_hash) false None
           2 (VTuple [VInt 1; VInt 2]) (VList [VInt 1; VInt 2]));
    reflexivity.
Defined.

Lemma asdict_anything_plain_data_witness :
  _asdict_anything classes no_hash true None (dict_ no_hash) false None 4
    (VDict [(VStr "k", VTuple [VInt 1; VList [VNone]])]) =
  Ok (VDict [(VStr "k", VList [VInt 1; VList [VNone]])]).
Proof.
  apply (asdict_anything_plain_data classes no_hash true None false None).
  - intros t Ht. simpl in Ht.
    repeat (destruct Ht as [<- | Ht]; [reflexivity|]). contradiction.
  - reflexivity.
  - apply Nat.leb_le. reflexivity.
Defined.

Lemma evolve_calls_initializer_witness :
  evolve classes plain_init [point] [("y", VInt 5)] =
  plain_init Point [("x", VInt 1); ("y", VInt 5)].
Proof.
  apply (evolve_calls_initializer classes plain_init point [("y", VInt 5)]
           Point_attrs
           (fun n => match getattr point n with Ok v => v | Raise _ => VNone end)).
  - reflexivity.
  - exact Point_attrs_NoDup.
  - simpl. intros n [<- | [<- | []]]; reflexivity.
  - simpl. intros k [<- | []]. tauto.
Defined.

Lemma evolve_missing_attribute_witness :
  evolve classes plain_init [VObj Point [("x", VInt 1)]] [("y", VInt 5)] =
  Raise (TypeError [Lit "Attribute "; Str "y";
                    Lit " doesn't exist or is not initializable."]).
Proof.
  apply (evolve_missing_attribute classes plain_init
           (VObj Point [("x", VInt 1)]) [("y", VInt 5)]
           [attrib "x" true] [attrib "cache" false] (attrib "y" true)).
  - reflexivity.
  - intros b [<- | []] _. eexists. reflexivity.
  - reflexivity.
  - reflexivity.
Defined.

Lemma assoc_changes_witness :
  fst (assoc classes point [("cache", VInt 9)]) =
    ["assoc() is deprecated, use evolve() instead."] /\
  ((forall k, In k (map fst [("cache", VInt 9)]) -> field_name Point_attrs k) ->
   exists d',
     snd (assoc classes point [("cache", VInt 9)]) = Copy (VObj Point d') /\
     forall n, lookup n d' =
               match lookup n [("cache", VInt 9)] with
               | Some x => Some x
               | None => lookup n [("x", VInt 1); ("y", VInt 2); ("cache", VInt 0)]
               end) /\
  (forall pre k x post,
      [("cache", VInt 9)] = (pre ++ (k, x) :: post)%list ->
      (forall k', In k' (map fst pre) -> field_name Point_attrs k') ->
      ~ field_name Point_attrs k ->
      snd (assoc classes point [("cache", VInt 9)]) =
      AttrsAttributeNotFoundError [Lit "Attribute "; Str k; Lit " not found"]).
Proof.
  apply (assoc_changes classes Point
           [("x", VInt 1); ("y", VInt 2); ("cache", VInt 0)]
           [("cache", VInt 9)] Point_attrs).
  - reflexivity.
  - repeat constructor. simpl. tauto.
Defined.

Example assoc_point_cache :
  snd (assoc classes point [("cache", VInt 9)]) =
  Copy (VObj Point [("x", VInt 1); ("y", VInt 2); ("cache", VInt 9)]).
Proof. reflexivity. Qed.

End Funcs.

(** ** _next_gen.py *)

Module NextGen.

Section WithClasses.

Variable attrs_attrs : pytype -> option (list Attribute).
Variable hashable_class : pytype -> bool.

(** [asdict(inst, *, recurse=True, filter=None, value_serializer=None)]:
    [attr.asdict] with [dict] and with the collection types retained. *)
Definition asdict (inst : pyvalue) (recurse : bool)
  (filter : option (Attribute -> pyvalue -> bool))
  (value_serializer : option (pyvalue -> Attribute -> pyvalue -> result pyvalue))
  : nat -> result pyvalue :=
  fun depth =>
    Funcs.asdict attrs_attrs hashable_class recurse filter (dict_ hashable_class)
      true value_serializer depth inst.

(** [astuple(inst, *, recurse=True, filter=None)] *)
Definition astuple (inst : pyvalue) (recurse : bool)
  (filter : option (Attribute -> pyvalue -> bool)) : nat -> result pyvalue :=
  fun depth => Funcs.astuple attrs_attrs recurse filter Funcs.tuple_ depth inst.

(** The classes of the plain data. *)
Definition plain_classes : list pytype :=
  [T_NoneType; T_bool; T_int; T_str; T_tuple; T_list; T_dict].

Lemma plain_class v : Funcs.plain v = true -> In (type_of v) plain_classes.
Proof. destruct v; simpl; intros H; try discriminate; tauto. Qed.

(** On an instance of a record class (with distinct field names) whose
    fields hold plain data, [asdict] returns the accepted fields, in
    declared order, each with the very value it holds: tuples stay tuples
    and dictionaries keep their keys.  (The stack must have room for the
    nested calls, and none of the builtin classes of plain data be a record
    class.) *)
Theorem asdict_plain_fields
  (filter : option (Attribute -> pyvalue -> bool))
  (depth : nat) (inst : pyvalue) (attrs : list Attribute)
  (raw : Attribute -> pyvalue) :
  attrs_attrs (type_of inst) = Some attrs ->
  NoDup (map name attrs) ->
  (forall t, In t plain_classes -> attrs_attrs t = None) ->
  (forall a, In a attrs -> getattr inst (name a) = Ok (raw a)) ->
  (forall a, In a attrs -> Funcs.accepts filter a (raw a) = true ->
             Funcs.plain (raw a) = true /\ (Funcs.calls (raw a) <= depth)%nat) ->
  asdict inst true filter None (S depth) =
  Ok (VDict (map (fun a => (VStr (name a), raw a))
                 (List.filter (fun a => Funcs.accepts filter a (raw a)) attrs))).
Proof.
  intros Hcls Hnd Hbuiltin Hraw Hplain. unfold asdict.
  apply (Funcs.asdict_fields attrs_attrs hashable_class true filter true None
           depth inst attrs raw raw raw); try assumption.
  - reflexivity.
  - intros a Ha Hacc. destruct (Hplain a Ha Hacc) as [Hp Hc].
    unfold Funcs.recursed, Funcs.has.
    rewrite (Hbuiltin _ (plain_class _ Hp)).
    destruct (Funcs.is_collection (raw a)); [|reflexivity].
    rewrite Funcs.asdict_anything_plain; try assumption.
    + now rewrite (Funcs.normalized_retain depth).
    + intros t Ht. apply Hbuiltin. simpl in *. tauto.
Qed.

End WithClasses.

(** [Holder(xs=(1, [2, {"a": None}]))] *)
Definition holder_of_plain : pyvalue :=
  VObj Funcs.Holder
    [("xs", VTuple [VInt 1; VList [VInt 2; VDict [(VStr "a", VNone)]]])].

Lemma asdict_plain_fields_witness :
  asdict Funcs.classes Funcs.no_hash holder_of_plain true None None 5 =
  Ok (VDict [(VStr "xs", VTuple [VInt 1; VList [VInt 2; VDict [(VStr "a", VNone)]]])]).
Proof.
  apply (asdict_plain_fields Funcs.classes Funcs.no_hash None 4 holder_of_plain
           [Funcs.attrib "xs" true]
           (fun _ => VTuple [VInt 1; VList [VInt 2; VDict [(VStr "a", VNone)]]])).
  - reflexivity.
  - repeat constructor. simpl. tauto.
  - intros t Ht. simpl in Ht.
    repeat (destruct Ht as [<- | Ht]; [reflexivity|]). contradiction.
  - intros a [<- | []]. reflexivity.
  - intros a _ _. split; [reflexivity | simpl; lia].
Defined.

End NextGen.

(** ** _version_info.py *)

Module VersionInfo.

(** How [_ensure_tuple] ends: with the pair [(us, them)], with
    [NotImplementedError] (whose message names [type(other)]), or with
    another exception. *)
Inductive ensured :=
| Ensured (us them : pyvalue)
| NotImplementedError (other_type : pytype)
| Raised (e : exn).

(** [_ensure_tuple(self, other)] *)
Definition _ensure_tuple (self other : pyvalue) : ensured :=
  match other with
  | VTuple other =>
      if (4 <? List.length other)%nat
      then Raised (ValueError [Lit "Comparison tuple too long"])
      else
        match (year <- getattr self "year";;
               minor <- getattr self "minor";;
               micro <- getattr self "micro";;
               releaselevel <- getattr self "releaselevel";;
               Ok [year; minor; micro; releaselevel]) with
        | Ok self_tuple =>
            let other_tuple :=
              (other ++ repeat VNone (4 - List.length other))%list in
            Ensured (VTuple (firstn (List.length other) self_tuple))
                    (VTuple other_tuple)
        | Raise e => Raised e
        end
  | _ => NotImplementedError (type_of other)
  end.

(** [__eq__(self, other)] *)
Definition __eq__ (self other : pyvalue) : result Cmp.outcome :=
  match _ensure_tuple self other with
  | Ensured us them => Ok (Cmp.Returned (VBool (py_eqb us them)))
  | NotImplementedError _ => Ok Cmp.NotImplemented
  | Raised e => Raise e
  end.

(** [VersionInfo(year, minor, micro, releaselevel)], of whatever class
    object [VersionInfo] is. *)
Definition version (cls : pytype) (year minor micro releaselevel : pyvalue) : pyvalue :=
  VObj cls [("year", year); ("minor", minor); ("micro", micro);
            ("releaselevel", releaselevel)].

(** [__eq__] pads the other tuple with [None] up to four entries and cuts
    its own four fields down to the length of the other tuple, so the two
    have the same length only when the other tuple has four entries: a
    version equals a tuple exactly when the tuple has four entries equal to
    its four fields, and never a shorter tuple, be it a prefix of the
    fields.  On a tuple of more than four entries it raises [ValueError];
    on anything that is not a tuple it hands back [NotImplemented]. *)
Theorem version_eq (cls : pytype) (year minor micro releaselevel other : pyvalue) :
  __eq__ (version cls year minor micro releaselevel) other =
  match other with
  | VTuple ys =>
      if (4 <? List.length ys)%nat
      then Raise (ValueError [Lit "Comparison tuple too long"])
      else Ok (Cmp.Returned
                 (VBool ((List.length ys =? 4)%nat
                         && py_eqb (VTuple [year; minor; micro; releaselevel])
                                   (VTuple ys))))
  | _ => Ok Cmp.NotImplemented
  end.
Proof.
  destruct other as [ | | | | ys | | | | | ]; try reflexivity.
  destruct ys as [|a [|b [|c [|d [|e ys]]]]]; try reflexivity.
  - unfold __eq__. simpl. now rewrite andb_false_r.
  - unfold __eq__. simpl. now rewrite !andb_false_r.
  - unfold __eq__. simpl. now rewrite !andb_false_r.
Qed.

Example version_eq_prefix :
  __eq__ (version (T_class 0) (VInt 19) (VInt 2) (VInt 0) (VStr "final"))
         (VTuple [VInt 19; VInt 2]) =
  Ok (Cmp.Returned (VBool false)).
Proof. reflexivity. Qed.

End VersionInfo.
